(** * libcompose, package config: the manifest merge engine (merge.go)

    A shallow embedding of [config/merge.go] and the properties of it that
    the specification states.

    Conventions of the embedding.
    - A Go [string] is a byte sequence: Rocq's [string] (a list of 8-bit
      [ascii]).
    - A Go [int] is the 64-bit [int]; its values are kept in [Z].
    - A Go pair [(value, error)] whose value is ignored by every caller when
      the error is set is a [result]; where the source builds the pair by
      hand ([getComposeMajorVersion], [Merge]) the pair is kept.
    - A Go [map] indexed by strings is a [gmap string _].  A nil map reads
      and ranges like the empty map; the maps that [mergeConfig] and
      [readEnvFile] write into are the allocated maps their callers pass.
      Where a map is returned to the caller ([Merge]) nil is kept apart as
      [None].
    - Go leaves the iteration order of a map unspecified.  Here a [range]
      visits the entries in the order of [map_fold]; the order only decides
      which error is reported when several entries would fail.
    - The collaborators that live outside merge.go (the YAML decoder, the
      interpolation engine, the per-version converters, [utils.Convert]) are
      variables of the sections that use them. *)

From Stdlib Require Import ZArith Ascii String List Lia Bool.
From stdpp Require Import base option list strings gmap fin_maps.

#[local] Set Warnings "-register-all".
#[local] Open Scope string_scope.
#[local] Open Scope Z_scope.
#[local] Open Scope list_scope.

(* ===================================================================== *)
(** ** Errors and results *)
(* ===================================================================== *)

(** The two sentinel errors of package strconv. *)
Inductive NumErr : Type :=
  | ErrSyntax
  | ErrRange.

(** The error values that reach the functions of this file. *)
Inductive error : Type :=
  | Errorf (msg : string)                          (* fmt.Errorf *)
  | NumError (func num : string) (err : NumErr)    (* *strconv.NumError *)
  | ErrTooLong                                     (* bufio.ErrTooLong *)
  | Foreign (tag : string).                        (* raised by a collaborator *)

Inductive result (E A : Type) : Type :=
  | Ok (a : A)
  | Err (e : E).
Arguments Ok {E A} a.
Arguments Err {E A} e.

(* ===================================================================== *)
(** ** The parts of the Go standard library that merge.go calls *)
(* ===================================================================== *)

Module GoStrings.

Definition byteZ (c : ascii) : Z := Z.of_N (N_of_ascii c).

Definition byte_eqb (a b : ascii) : bool := Ascii.eqb a b.

(** [len(s)] *)
Definition len (s : string) : Z := Z.of_nat (String.length s).

(** [strings.Split(s, sep)] for a separator of one byte: the pieces
    between the separators, one more than there are separators. *)
Fixpoint Split (s : string) (sep : ascii) : list string :=
  match s with
  | EmptyString => [EmptyString]
  | String c r =>
      if byte_eqb c sep then EmptyString :: Split r sep
      else match Split r sep with
           | h :: t => String c h :: t
           | [] => [String c EmptyString]
           end
  end.

(** [strings.HasPrefix(s, prefix)] *)
Fixpoint HasPrefix (s prefix : string) : bool :=
  match prefix, s with
  | EmptyString, _ => true
  | String p pr, String c r => byte_eqb c p && HasPrefix r pr
  | String _ _, EmptyString => false
  end.

(** [strings.SplitAfter(s, sep)[0]] for a separator of one byte: [s] up
    to and including the first separator, all of [s] when it has none. *)
Fixpoint SplitAfter0 (s : string) (sep : ascii) : string :=
  match s with
  | EmptyString => EmptyString
  | String c r =>
      if byte_eqb c sep then String c EmptyString
      else String c (SplitAfter0 r sep)
  end.

(** *** strconv.Atoi *)

Definition maxUint64 : Z := 18446744073709551615.
Definition intCutoff : Z := 9223372036854775808.   (* 1 << 63 *)

(** The digit loop of [strconv.ParseUint(s, 10, 64)], [n] the value read
    so far.  A byte that is no decimal digit is a syntax error; the range
    error is raised at the digit that overflows, before the bytes after
    it are looked at. *)
Fixpoint parseUintLoop (s : string) (n : Z) : Z * option NumErr :=
  match s with
  | EmptyString => (n, None)
  | String c r =>
      let b := byteZ c in
      if (48 <=? b) && (b <=? 57) then
        if n >=? maxUint64 / 10 + 1 then (maxUint64, Some ErrRange)
        else
          let n1 := n * 10 + (b - 48) in
          if n1 >? maxUint64 then (maxUint64, Some ErrRange)
          else parseUintLoop r n1
      else (0, Some ErrSyntax)
  end.

Definition ParseUint (s : string) : Z * option NumErr :=
  match s with
  | EmptyString => (0, Some ErrSyntax)
  | _ => parseUintLoop s 0
  end.

(** [strconv.ParseInt(s, 10, 0)] on a platform whose [int] has 64 bits. *)
Definition ParseInt (s : string) : Z * option NumErr :=
  match s with
  | EmptyString => (0, Some ErrSyntax)
  | String c r =>
      let neg := byte_eqb c "-" in
      let digits := if byte_eqb c "+" || neg then r else s in
      match ParseUint digits with
      | (_, Some ErrSyntax) => (0, Some ErrSyntax)
      | (un, _) =>
          if negb neg && (un >=? intCutoff) then (intCutoff - 1, Some ErrRange)
          else if neg && (un >? intCutoff) then (- intCutoff, Some ErrRange)
          else (if neg then - un else un, None)
      end
  end.

(** [strconv.Atoi(s)]: [ParseInt(s, 10, 0)] with the error renamed (the
    fast path it has for short inputs returns the same pairs). *)
Definition Atoi (s : string) : Z * option error :=
  match ParseInt s with
  | (n, None) => (n, None)
  | (n, Some k) => (n, Some (NumError "Atoi" s k))
  end.

End GoStrings.

Module Bufio.

Import GoStrings.

(** bufio.MaxScanTokenSize *)
Definition MaxScanTokenSize : Z := 64 * 1024.

Definition LF : ascii := ascii_of_nat 10.
Definition CR : ascii := ascii_of_nat 13.

(** [dropCR] of bufio: one carriage return at the end is dropped. *)
Fixpoint dropCR (data : string) : string :=
  match data with
  | EmptyString => EmptyString
  | String c EmptyString => if byte_eqb c CR then EmptyString else data
  | String c r => String c (dropCR r)
  end.

(** The raw lines of a buffer: the pieces between the line feeds; what
    follows the last line feed is a line only when it is not empty. *)
Definition rawLines (content : string) : list string :=
  let parts := Split content LF in
  match last parts with
  | Some EmptyString => removelast parts
  | _ => parts
  end.

(** The run of a [bufio.Scanner] with the default split function
    ([ScanLines]) and the default buffer over [lines]: the tokens that
    [Scan] yields, in order, and what [Err] returns once [Scan] has
    returned false.  A line that does not fit the buffer, line feed
    included, stops the scan with [ErrTooLong]. *)
Fixpoint scanTokens (lines : list string) : list string * option error :=
  match lines with
  | [] => ([], None)
  | l :: rest =>
      if len l >=? MaxScanTokenSize then ([], Some ErrTooLong)
      else let '(toks, e) := scanTokens rest in (dropCR l :: toks, e)
  end.

Definition ScanLines (content : string) : list string * option error :=
  scanTokens (rawLines content).

End Bufio.

(* ===================================================================== *)
(** ** getComposeMajorVersion *)
(* ===================================================================== *)

Import GoStrings.

Definition invalidVersionMsg (version : string) : string :=
  "Invalid version string, expected single integer or dot delimited int.int. Got: "
    +:+ version.

Definition getComposeMajorVersion (version : string) : Z * option error :=
  if String.eqb version "" then (1, None)
  else
    let parts := Split version "." in
    if (length parts =? 1)%nat then Atoi version
    else if (length parts =? 2)%nat then Atoi (List.nth 0 parts "")
    else (-1, Some (Errorf (invalidVersionMsg version))).

(* ===================================================================== *)
(** ** Data model *)
(* ===================================================================== *)

(** Modelled from the spec: the untyped values of a raw service (section 3;
    the types are declared outside merge.go).  What the YAML decoder leaves
    in an [interface{}]: nil, a scalar, a [[]interface{}] or a
    [map[interface{}]interface{}]; and the one typed slice that this file
    stores back into a raw service ([yaml.MaporEqualSlice], a [[]string]).  A float is kept as its 64 bits,
    nothing here looks into it.  The keys of a nested mapping are taken to
    be strings, as the keys of every compose field are. *)
Inductive Value : Type :=
  | VNil
  | VBool (b : bool)
  | VInt (n : Z)
  | VFloat (bits : Z)
  | VStr (s : string)
  | VSeq (l : list Value)
  | VMap (m : gmap string Value)
  | VStrings (l : list string).

(** [reflect.Kind] *)
Inductive Kind : Type :=
  | KBool | KInt | KFloat64 | KString | KSlice | KMap.

(** [reflect.TypeOf(v).Kind()].  [reflect.TypeOf] of a nil interface is the
    nil [Type], and calling [Kind] on it is a nil dereference: [None]. *)
Definition TypeOf_Kind (v : Value) : option Kind :=
  match v with
  | VNil => None
  | VBool _ => Some KBool
  | VInt _ => Some KInt
  | VFloat _ => Some KFloat64
  | VStr _ => Some KString
  | VSeq _ => Some KSlice
  | VMap _ => Some KMap
  | VStrings _ => Some KSlice
  end.

Definition Kind_eqb (a b : Kind) : bool :=
  match a, b with
  | KBool, KBool | KInt, KInt | KFloat64, KFloat64
  | KString, KString | KSlice, KSlice | KMap, KMap => true
  | _, _ => false
  end.

(** [type RawService map[string]interface{}] and
    [type RawServiceMap map[string]RawService] *)
Abbreviation RawService := (gmap string Value).
Abbreviation RawServiceMap := (gmap string (gmap string Value)).

(** Modelled from the spec: [type Config struct] (the Manifest of section
    3), declared outside merge.go, with the four fields that merge.go reads.
    [Volumes] and [Networks] are nil ([None]) when the document has no such
    section. *)
Record Config : Type := mkConfig {
  Version : string;
  Services : RawServiceMap;
  Volumes : option (gmap string Value);
  Networks : option (gmap string Value)
}.

(** Modelled from the spec: [type ServiceConfig struct] (section 3),
    declared outside merge.go, which reads and writes [Restart] only; the
    other fields travel along in [Others]. *)
Record ServiceConfig : Type := mkServiceConfig {
  Restart : string;
  Others : gmap string Value
}.

(** A [map[string]*ServiceConfig]; nil is [None].  The converters allocate
    every entry, so a map holds no nil pointer, and [adjustValues] treats
    each entry on its own, so that two names sharing one struct see the
    same result. *)
Abbreviation ServiceMap := (option (gmap string ServiceConfig)).

(** Modelled from the spec: [type ResourceLookup interface] (sections 3 and
    6), declared outside merge.go: content and resolved path of a file
    referenced from a manifest.  One call of [readEnvFile] sees it as a
    function. *)
Record ResourceLookup : Type := mkResourceLookup {
  Lookup : string -> string -> result error (string * string)
}.

Module ParseOptions.
(** Modelled from the spec: [type ParseOptions struct] (section 3),
    declared outside merge.go; a nil hook is [None]. *)
Record t : Type := mk {
  Interpolate : bool;
  Validate : bool;
  Preprocess : option (RawServiceMap -> result error RawServiceMap);
  Postprocess : option (ServiceMap -> result error ServiceMap)
}.
End ParseOptions.

Definition noMerge : list string := ["links"; "volumes_from"].

Definition defaultParseOptions : ParseOptions.t :=
  ParseOptions.mk true true None None.

(* ===================================================================== *)
(** ** Ranging over a map with a body that can fail *)
(* ===================================================================== *)

(** [for k, v := range m { v', err := f(k, v); if err != nil { return err };
    m[k] = v' }]: the map with every value replaced, or the first failure
    met. *)
Definition rangeM {E A B : Type} (f : string -> A -> result E B)
    (m : gmap string A) : result E (gmap string B) :=
  map_fold
    (fun k v acc =>
       match acc with
       | Err e => Err e
       | Ok done =>
           match f k v with
           | Ok v' => Ok (<[k := v']> done)
           | Err e => Err e
           end
       end)
    (Ok ∅) m.

(* ===================================================================== *)
(** ** The extends normalizer (the first loop of Merge) *)
(* ===================================================================== *)

Definition nilKindPanic : string :=
  "runtime error: invalid memory address or nil pointer dereference".

(** The body of the inner loop: what the field [key] of a service holds
    after it.  The test on the kind is only reached for the key "extends". *)
Definition normalizeExtendsField (key : string) (value : Value)
    : result string Value :=
  if String.eqb key "extends" then
    match TypeOf_Kind value with
    | None => Err nilKindPanic
    | Some k =>
        if Kind_eqb k KString then Ok (VMap {[ "service" := value ]})
        else Ok value
    end
  else Ok value.

Definition normalizeExtendsService (data : RawService)
    : result string RawService :=
  rangeM normalizeExtendsField data.

Definition normalizeExtends (baseRawServices : RawServiceMap)
    : result string RawServiceMap :=
  rangeM (fun _ data => normalizeExtendsService data) baseRawServices.

(* ===================================================================== *)
(** ** adjustValues *)
(* ===================================================================== *)

Definition adjustRestart (v : ServiceConfig) : ServiceConfig :=
  if String.eqb (Restart v) "false" then mkServiceConfig "no" (Others v)
  else v.

Definition adjustValues (configs : ServiceMap) : ServiceMap :=
  fmap (M := option) (fmap (M := gmap string) adjustRestart) configs.

(* ===================================================================== *)
(** ** CreateConfig and Merge *)
(* ===================================================================== *)

(** How a call of [Merge] ends: it returns its five values, or the process
    exits ([logrus.Fatal] logs and exits with status 1), or it panics. *)
Inductive Outcome (VolumeConfig NetworkConfig : Type) : Type :=
  | Returned (version : string)
             (services : ServiceMap)
             (volumes : option (gmap string VolumeConfig))
             (networks : option (gmap string NetworkConfig))
             (err : option error)
  | Exited (status : Z) (logged : string)
  | Panicked (msg : string).
Arguments Returned {VolumeConfig NetworkConfig}.
Arguments Exited {VolumeConfig NetworkConfig}.
Arguments Panicked {VolumeConfig NetworkConfig}.

Definition v3Note : string :=
  "Note: Compose file version 3 is not yet implemented".

Section Engine.

(** Types declared elsewhere in the package; merge.go hands their values
    on without looking into them. *)
Context {EnvironmentLookup ServiceConfigs ServiceConfigV1
         VolumeConfig NetworkConfig : Type}.

(** [yaml.Unmarshal(bytes, &config)] for a [Config] and for a
    [RawServiceMap]. *)
Variable yamlUnmarshalConfig : string -> result error Config.
Variable yamlUnmarshalServices : string -> result error RawServiceMap.

(** [Interpolate(key, &data, environmentLookup)] of interpolation.go: the
    value left in [data], or the error. *)
Variable Interpolate :
  string -> Value -> EnvironmentLookup -> result error Value.

(** merge_v1.go, merge_v2.go and convert.go *)
Variable MergeServicesV1 :
  ServiceConfigs -> EnvironmentLookup -> option ResourceLookup -> string ->
  RawServiceMap -> ParseOptions.t ->
  result error (option (gmap string ServiceConfigV1)).
Variable MergeServicesV2 :
  ServiceConfigs -> EnvironmentLookup -> option ResourceLookup -> string ->
  RawServiceMap -> ParseOptions.t -> result error ServiceMap.
Variable ConvertServices :
  option (gmap string ServiceConfigV1) -> result error ServiceMap.

(** [utils.Convert(config.Volumes, &volumes)] and the same for networks *)
Variable convertVolumes :
  gmap string Value -> result error (option (gmap string VolumeConfig)).
Variable convertNetworks :
  gmap string Value -> result error (option (gmap string NetworkConfig)).

Definition CreateConfig (bytes : string) : result error Config :=
  match yamlUnmarshalConfig bytes with
  | Err e => Err e
  | Ok config =>
      match getComposeMajorVersion (Version config) with
      | (_, Some e) => Err e
      | (major, None) =>
          let reparsed :=
            if major <? 2 then
              match yamlUnmarshalServices bytes with
              | Err e => Err e
              | Ok baseRawServices =>
                  Ok (mkConfig (Version config) baseRawServices
                               (Volumes config) (Networks config))
              end
            else Ok config in
          match reparsed with
          | Err e => Err e
          | Ok config =>
              Ok (mkConfig (Version config) (Services config)
                    (Some (default ∅ (Volumes config)))
                    (Some (default ∅ (Networks config))))
          end
      end
  end.

Definition InterpolateRawServiceMap (baseRawServices : RawServiceMap)
    (environmentLookup : EnvironmentLookup) : result error RawServiceMap :=
  rangeM
    (fun _ v => rangeM (fun k2 v2 => Interpolate k2 v2 environmentLookup) v)
    baseRawServices.

(** The error returns of [Merge] all read [return "", nil, nil, nil, err]. *)
Definition failed (err : error) : Outcome VolumeConfig NetworkConfig :=
  Returned "" None None None (Some err).

(** The version switch of [Merge]. *)
Definition dispatch (major : Z)
    (existingServices : ServiceConfigs)
    (environmentLookup : EnvironmentLookup)
    (resourceLookup : option ResourceLookup) (file : string)
    (baseRawServices : RawServiceMap) (options : ParseOptions.t)
    : result (Outcome VolumeConfig NetworkConfig) ServiceMap :=
  if major =? 3 then Err (Exited 1 v3Note)
  else if major =? 2 then
    match MergeServicesV2 existingServices environmentLookup resourceLookup
            file baseRawServices options with
    | Err e => Err (failed e)
    | Ok serviceConfigs => Ok serviceConfigs
    end
  else
    match MergeServicesV1 existingServices environmentLookup resourceLookup
            file baseRawServices options with
    | Err e => Err (failed e)
    | Ok serviceConfigsV1 =>
        match ConvertServices serviceConfigsV1 with
        | Err e => Err (failed e)
        | Ok serviceConfigs => Ok serviceConfigs
        end
    end.

(** The [if options.Interpolate] block: services, volumes, networks. *)
Definition interpolateAll (interpolate : bool)
    (environmentLookup : EnvironmentLookup)
    (baseRawServices : RawServiceMap) (volumes networks : gmap string Value)
    : result error (RawServiceMap * gmap string Value * gmap string Value) :=
  if interpolate then
    match InterpolateRawServiceMap baseRawServices environmentLookup with
    | Err e => Err e
    | Ok baseRawServices =>
        match rangeM (fun k v => Interpolate k v environmentLookup) volumes with
        | Err e => Err e
        | Ok volumes =>
            match rangeM (fun k v => Interpolate k v environmentLookup)
                    networks with
            | Err e => Err e
            | Ok networks => Ok (baseRawServices, volumes, networks)
            end
        end
    end
  else Ok (baseRawServices, volumes, networks).

Definition Merge (existingServices : ServiceConfigs)
    (environmentLookup : EnvironmentLookup)
    (resourceLookup : option ResourceLookup)
    (file : string) (bytes : string) (options : option ParseOptions.t)
    : Outcome VolumeConfig NetworkConfig :=
  let options := default defaultParseOptions options in
  match CreateConfig bytes with
  | Err e => failed e
  | Ok config =>
  match normalizeExtends (Services config) with
  | Err msg => Panicked msg
  | Ok baseRawServices =>
  match interpolateAll (ParseOptions.Interpolate options) environmentLookup
          baseRawServices (default ∅ (Volumes config))
          (default ∅ (Networks config)) with
  | Err e => failed e
  | Ok (baseRawServices, configVolumes, configNetworks) =>
  match (match ParseOptions.Preprocess options with
         | Some hook => hook baseRawServices
         | None => Ok baseRawServices
         end) with
  | Err e => failed e
  | Ok baseRawServices =>
  match getComposeMajorVersion (Version config) with
  | (_, Some e) => failed e
  | (major, None) =>
  match dispatch major existingServices environmentLookup resourceLookup
          file baseRawServices options with
  | Err stop => stop
  | Ok serviceConfigs =>
  let serviceConfigs := adjustValues serviceConfigs in
  match (match ParseOptions.Postprocess options with
         | Some hook => hook serviceConfigs
         | None => Ok serviceConfigs
         end) with
  | Err e => failed e
  | Ok serviceConfigs =>
  match convertVolumes configVolumes with
  | Err e => failed e
  | Ok volumes =>
  match convertNetworks configNetworks with
  | Err e => failed e
  | Ok networks =>
      Returned (Version config) serviceConfigs volumes networks None
  end end end end end end end end end.

End Engine.

(* ===================================================================== *)
(** ** readEnvFile *)
(* ===================================================================== *)

Definition noLookupMsg (inFile : string) : string :=
  "Can not use env_file in file " +:+ inFile
    +:+ " no mechanism provided to load files".

Section EnvFile.

(** [utils.Convert(v, &target)] for a target of type [yaml.Stringorslice]
    and of type [yaml.MaporEqualSlice] (both are [[]string]). *)
Variable convertStringorslice : Value -> result error (list string).
Variable convertMaporEqualSlice : Value -> result error (list string).

(** [strings.TrimSpace]: it removes the leading and trailing white space
    that Unicode defines; the embedding does not decode UTF-8 and takes
    the function as it is. *)
Variable TrimSpace : string -> string.

(** [for _, v := range vars { if strings.HasPrefix(v, key) { found = true;
    break } }] *)
Fixpoint foundPrefix (vars : list string) (key : string) : bool :=
  match vars with
  | [] => false
  | v :: rest => if HasPrefix v key then true else foundPrefix rest key
  end.

(** The body of the scanner loop for one token. *)
Definition scanLine (vars : list string) (text : string) : list string :=
  let line := TrimSpace text in
  if (len line >? 0) && negb (HasPrefix line "#") then
    let key := SplitAfter0 line "=" in
    if negb (foundPrefix vars key) then vars ++ [line] else vars
  else vars.

(** One env file: the scanner loop over its content, then [scanner.Err()]. *)
Definition scanFile (content : string) (vars : list string)
    : result error (list string) :=
  let '(tokens, err) := Bufio.ScanLines content in
  let vars := fold_left scanLine tokens vars in
  match err with
  | Some e => Err e
  | None => Ok vars
  end.

(** [for i := len(envFiles) - 1; i >= 0; i--], with [n = i + 1].  The
    index is always in range. *)
Fixpoint envFilesLoop (resourceLookup : ResourceLookup) (inFile : string)
    (envFiles : list string) (n : nat) (vars : list string)
    : result error (list string) :=
  match n with
  | O => Ok vars
  | S i =>
      let envFile := List.nth i envFiles "" in
      match Lookup resourceLookup envFile inFile with
      | Err e => Err e
      | Ok (content, _) =>
          match scanFile content vars with
          | Err e => Err e
          | Ok vars => envFilesLoop resourceLookup inFile envFiles i vars
          end
      end
  end.

Definition readEnvFile (resourceLookup : option ResourceLookup)
    (inFile : string) (serviceData : RawService)
    : result error RawService :=
  match serviceData !! "env_file" with
  | None => Ok serviceData
  | Some envFileValue =>
  match convertStringorslice envFileValue with
  | Err e => Err e
  | Ok envFiles =>
  if (length envFiles =? 0)%nat then Ok serviceData
  else
  match resourceLookup with
  | None => Err (Errorf (noLookupMsg inFile))
  | Some resourceLookup =>
  match (match serviceData !! "environment" with
         | Some environment => convertMaporEqualSlice environment
         | None => Ok []
         end) with
  | Err e => Err e
  | Ok vars =>
  match envFilesLoop resourceLookup inFile envFiles (length envFiles) vars with
  | Err e => Err e
  | Ok vars => Ok (<["environment" := VStrings vars]> serviceData)
  end end end end end.

End EnvFile.

(* ===================================================================== *)
(** ** mergeConfig *)
(* ===================================================================== *)

Section MergeConfig.

(** [merge(existing, value)], defined outside merge.go. *)
Variable merge : Value -> Value -> Value.

Definition mergeConfig (baseService serviceData : RawService) : RawService :=
  map_fold
    (fun k v baseService =>
       match baseService !! k with
       | Some existing => <[k := merge existing v]> baseService
       | None => <[k := v]> baseService
       end)
    baseService serviceData.

End MergeConfig.

(** Modelled from the spec: [merge], which merge.go calls and does not
    define.  Section 4.4: two sequences concatenate, the existing elements
    first; two mappings merge key by key with the same rule; in every other
    case the incoming value is the result.  The function receives the two
    values and not the name of the field. *)
Fixpoint merge (existing value : Value) {struct existing} : Value :=
  match existing, value with
  | VSeq l, VSeq r => VSeq (l ++ r)
  | VMap l, VMap r =>
      VMap (map_imap (fun k withIncoming => Some (withIncoming (r !! k)))
              ((fun e (incoming : option Value) =>
                  match incoming with
                  | Some v => merge e v
                  | None => e
                  end) <$> l)
            ∪ r)
  | _, _ => value
  end.

(* ===================================================================== *)
(** ** Instances of the collaborators, for the examples *)
(* ===================================================================== *)

Module Sample.

(** White space of ASCII, which [strings.TrimSpace] removes:
    tab, line feed, vertical tab, form feed, carriage return, space. *)
Definition asciiSpace (c : ascii) : bool :=
  let b := byteZ c in ((9 <=? b) && (b <=? 13)) || (b =? 32).

Fixpoint trimLeft (s : string) : string :=
  match s with
  | EmptyString => EmptyString
  | String c r => if asciiSpace c then trimLeft r else s
  end.

Fixpoint trimRight (s : string) : string :=
  match s with
  | EmptyString => EmptyString
  | String c r =>
      match trimRight r with
      | EmptyString => if asciiSpace c then EmptyString else String c EmptyString
      | r' => String c r'
      end
  end.

(** [strings.TrimSpace] on text that is ASCII. *)
Definition trimSpace (s : string) : string := trimRight (trimLeft s).

(** A [Stringorslice] from one string or from a sequence of strings. *)
Definition toStrings (l : list Value) : result error (list string) :=
  foldr (fun v acc =>
           match v, acc with
           | VStr s, Ok rest => Ok (s :: rest)
           | _, Ok _ => Err (Foreign "not a string")
           | _, Err e => Err e
           end) (Ok []) l.

Definition stringorslice (v : Value) : result error (list string) :=
  match v with
  | VNil => Ok []
  | VStr s => Ok [s]
  | VSeq l => toStrings l
  | VStrings l => Ok l
  | _ => Err (Foreign "Failed to unmarshal Stringorslice")
  end.

(** A [MaporEqualSlice] from a sequence of KEY=VALUE strings. *)
Definition maporEqualSlice (v : Value) : result error (list string) :=
  match v with
  | VNil => Ok []
  | VSeq l => toStrings l
  | VStrings l => Ok l
  | _ => Err (Foreign "Failed to unmarshal MaporEqualSlice")
  end.

(** A resource lookup over an in-memory file table. *)
Definition memLookup (files : list (string * string)) : ResourceLookup :=
  mkResourceLookup (fun file relativeTo =>
    match List.find (fun '(name, _) => String.eqb name file) files with
    | Some (name, content) => Ok (content, name)
    | None => Err (Foreign ("no such file: " +:+ file))
    end).

End Sample.

(* ===================================================================== *)
(** ** The vocabulary of the properties *)
(* ===================================================================== *)

(** *** Integer tokens and the shapes of a version string *)

Definition isDigit (c : ascii) : bool := (48 <=? byteZ c) && (byteZ c <=? 57).

Fixpoint allDigits (s : string) : bool :=
  match s with
  | EmptyString => true
  | String c r => isDigit c && allDigits r
  end.

(** The number that the decimal digits [s] write after the number [n]. *)
Fixpoint digitsValue (s : string) (n : Z) : Z :=
  match s with
  | EmptyString => n
  | String c r => digitsValue r (n * 10 + (byteZ c - 48))
  end.

(** A non-empty run of decimal digits, as a number. *)
Definition decimal (s : string) : option Z :=
  match s with
  | EmptyString => None
  | _ => if allDigits s then Some (digitsValue s 0) else None
  end.

(** An integer token: decimal digits after an optional sign, naming a number
    that a 64-bit [int] holds. *)
Definition intToken (s : string) : option Z :=
  match s with
  | EmptyString => None
  | String c r =>
      if byte_eqb c "-" then
        match decimal r with
        | Some n => if n <=? intCutoff then Some (- n) else None
        | None => None
        end
      else
        match decimal (if byte_eqb c "+" then r else s) with
        | Some n => if n <? intCutoff then Some n else None
        | None => None
        end
  end.

Fixpoint countByte (s : string) (c : ascii) : nat :=
  match s with
  | EmptyString => O
  | String b r => if byte_eqb b c then S (countByte r c) else countByte r c
  end.

(** [s] up to its first [c], all of [s] when it has none. *)
Fixpoint beforeByte (s : string) (c : ascii) : string :=
  match s with
  | EmptyString => EmptyString
  | String b r => if byte_eqb b c then EmptyString else String b (beforeByte r c)
  end.

Inductive VersionShape : Type :=
  | NoVersion                     (* the empty string *)
  | OneToken                      (* no dot *)
  | TwoTokens (first : string)    (* one dot, [first] before it *)
  | ManyTokens.                   (* two dots or more *)

Definition shapeOf (version : string) : VersionShape :=
  if String.eqb version "" then NoVersion
  else match countByte version "." with
       | O => OneToken
       | S O => TwoTokens (beforeByte version ".")
       | _ => ManyTokens
       end.

(** *** Extends, merged values *)

(** What the inner loop leaves in a service, by the value of its "extends". *)
Definition normalizedExtends (data : RawService) (value : Value)
    : result string RawService :=
  match value with
  | VNil => Err nilKindPanic
  | VStr s => Ok (<["extends" := VMap {[ "service" := VStr s ]}]> data)
  | _ => Ok data
  end.

Definition sameContainer (existing value : Value) : bool :=
  match existing, value with
  | VSeq _, VSeq _ | VMap _, VMap _ => true
  | _, _ => false
  end.

(** *** Entries and lines of env files *)

(** The key of an entry, "KEY=" when the entry has a "=": what
    [strings.SplitAfter(line, "=")[0]] is. *)
Definition keyOf (line : string) : string := SplitAfter0 line "=".

Section EnvFileSpec.

Variable TrimSpace : string -> string.

(** A line of an env file that counts: trimmed, not empty, no comment. *)
Definition usefulLine (text : string) : option string :=
  let line := TrimSpace text in
  if (len line >? 0) && negb (HasPrefix line "#") then Some line else None.

(** A line claims its key unless an entry that is already there has the key
    as a prefix. *)
Definition claim (vars : list string) (line : string) : list string :=
  if foundPrefix vars (keyOf line) then vars else vars ++ [line].

(** The lines of one env file that count, in the order of the file. *)
Definition fileLines (resourceLookup : ResourceLookup) (inFile file : string)
    : list string :=
  match Lookup resourceLookup file inFile with
  | Ok (content, _) => omap usefulLine (fst (Bufio.ScanLines content))
  | Err _ => []
  end.

(** The lines of all env files in the order in which they are met: the file
    listed last comes first. *)
Definition candidates (resourceLookup : ResourceLookup) (inFile : string)
    (envFiles : list string) : list string :=
  flat_map (fileLines resourceLookup inFile) (rev envFiles).

(** The lookup of the file succeeds and the scanner reads it to its end. *)
Definition readable (resourceLookup : ResourceLookup) (inFile file : string)
    : Prop :=
  exists content path,
    Lookup resourceLookup file inFile = Ok (content, path)
    /\ snd (Bufio.ScanLines content) = None.

End EnvFileSpec.

Definition sampleReadEnvFile :=
  readEnvFile Sample.stringorslice Sample.maporEqualSlice
    Sample.trimSpace.

(** The service of section 8: one explicit entry and two env files. *)
Definition webService : RawService :=
  {[ "environment" := VSeq [VStr "A=1"];
     "env_file" := VSeq [VStr "f1"; VStr "f2"] ]}.

Definition webFiles : ResourceLookup :=
  Sample.memLookup [("f1", "A=2"); ("f2", "B=3")].

(** An env file of one line that is as long as the scanner's buffer. *)
Fixpoint repeatByte (c : ascii) (n : nat) : string :=
  match n with
  | O => EmptyString
  | S n => String c (repeatByte c n)
  end.

Definition oversizedLine : string :=
  repeatByte "a" (Z.to_nat Bufio.MaxScanTokenSize).

(** *** The stages of Merge *)

Section SwitchSpec.

Context {EnvironmentLookup : Type}.
Variable Interpolate :
  string -> Value -> EnvironmentLookup -> result error Value.

(** The stages of [Merge] before the version switch all complete. *)
Definition reachesSwitch (environmentLookup : EnvironmentLookup)
    (config : Config) (options : ParseOptions.t) : Prop :=
  exists normalized interpolated volumes networks preprocessed,
    normalizeExtends (Services config) = Ok normalized
    /\ interpolateAll Interpolate (ParseOptions.Interpolate options)
         environmentLookup normalized (default ∅ (Volumes config))
         (default ∅ (Networks config))
       = Ok (interpolated, volumes, networks)
    /\ match ParseOptions.Preprocess options with
       | Some hook => hook interpolated
       | None => Ok interpolated
       end = Ok preprocessed.

End SwitchSpec.

(** *** An engine over sample manifests *)

Module SampleEngine.

(** A decoder that knows a table of documents. *)
Definition decoder {A : Type} (documents : list (string * A)) (bytes : string)
    : result error A :=
  match List.find (fun '(text, _) => String.eqb text bytes) documents with
  | Some (_, decoded) => Ok decoded
  | None => Err (Foreign "yaml: unmarshal errors")
  end.

Definition v2Manifest : string :=
  "{version: '2', services: {web: {image: busybox, restart: no}}}".
Definition v3Manifest : string :=
  "{version: '3', services: {web: {image: busybox}}}".
Definition badReferenceManifest : string :=
  "{version: '2', services: {web: {image: '${'}}}".
Definition brokenManifest : string := "version: [".

(** The unquoted [no] of the v2 manifest arrives as the boolean false. *)
Definition documents : list (string * Config) :=
  [ (v2Manifest,
     mkConfig "2"
       {[ "web" := {[ "image" := VStr "busybox"; "restart" := VBool false ]} ]}
       None None);
    (v3Manifest,
     mkConfig "3" {[ "web" := {[ "image" := VStr "busybox" ]} ]} None None);
    (badReferenceManifest,
     mkConfig "2" {[ "web" := {[ "image" := VStr "${" ]} ]} None None) ].

(** An interpolation for values without references: the text that opens a
    reference and never closes it is the one error, all else is left. *)
Definition interpolate (key : string) (value : Value) (lookup : unit)
    : result error Value :=
  match value with
  | VStr s => if String.eqb s "${" then Err (Foreign "Invalid interpolation format")
              else Ok value
  | _ => Ok value
  end.

(** A version adapter that fills [Restart] from the field "restart", a
    boolean written out as text. *)
Definition toServiceConfig (data : RawService) : ServiceConfig :=
  mkServiceConfig
    match data !! "restart" with
    | Some (VStr s) => s
    | Some (VBool true) => "true"
    | Some (VBool false) => "false"
    | _ => ""
    end
    (delete "restart" data).

Definition MergeServices (existing : unit) (lookup : unit)
    (resourceLookup : option ResourceLookup) (file : string)
    (raw : RawServiceMap) (options : ParseOptions.t)
    : result error ServiceMap :=
  Ok (Some (toServiceConfig <$> raw)).

Definition run :=
  Merge (EnvironmentLookup := unit) (ServiceConfigs := unit)
    (VolumeConfig := Value) (NetworkConfig := Value)
    (decoder documents) (decoder []) interpolate
    MergeServices MergeServices Ok (fun m => Ok (Some m)) (fun m => Ok (Some m)).

(** A Postprocess hook that sets the restart policy of every service. *)
Definition restartAll (policy : string) (configs : ServiceMap)
    : result error ServiceMap :=
  Ok (fmap (M := option)
        (fmap (M := gmap string) (fun v => mkServiceConfig policy (Others v)))
        configs).

End SampleEngine.


(* ===================================================================== *)
(** ** docker/ctx: the context and its configuration file (context.go) *)
(* ===================================================================== *)

Module DockerCtx.

Section LookupConfig.

(** Types declared outside context.go: the embedded [project.Context], the
    client factory, the configuration file of the docker CLI and the auth
    lookup; [LookupConfig] hands them on without looking into them. *)
Context {ProjectContext ClientFactoryT ConfigFileT AuthLookupT : Type}.

(** [type Context struct]; the pointer [ConfigFile] is nil ([None]) until a
    configuration file has been loaded. *)
Record t : Type := mk {
  Context : ProjectContext;
  ClientFactory : ClientFactoryT;
  ConfigDir : string;
  ConfigFile : option ConfigFileT;
  AuthLookup : AuthLookupT
}.

(** [cliconfig.Load(configDir)] at the time of the call: the pointer and
    the error that it returns. *)
Variable Load : string -> option ConfigFileT * option error.

(** [func (c *Context) LookupConfig() error]: the context after the call
    and the error returned. *)
Definition LookupConfig (c : t) : t * option error :=
  match ConfigFile c with
  | Some _ => (c, None)
  | None =>
      let '(config, err) := Load (ConfigDir c) in
      match err with
      | Some e => (c, Some e)
      | None =>
          (mk (Context c) (ClientFactory c) (ConfigDir c) config (AuthLookup c),
           None)
      end
  end.

End LookupConfig.

End DockerCtx.

(* ===================================================================== *)
(** ** Further vocabulary *)
(* ===================================================================== *)

(** The major version that a version string stands for, when it has one. *)
Definition majorOf (version : string) : option Z :=
  match shapeOf version with
  | NoVersion => Some 1
  | OneToken => intToken version
  | TwoTokens first => intToken first
  | ManyTokens => None
  end.

(** The lookup of the file fails with [e], or the scanner stops in its
    content with [e]. *)
Definition unreadableWith (resourceLookup : ResourceLookup)
    (inFile file : string) (e : error) : Prop :=
  Lookup resourceLookup file inFile = Err e
  \/ exists content path,
       Lookup resourceLookup file inFile = Ok (content, path)
       /\ snd (Bufio.ScanLines content) = Some e.

(** Some service of the manifest has an "extends" that is null. *)
Definition hasNullExtends (raw : RawServiceMap) : Prop :=
  exists name data, raw !! name = Some data /\ data !! "extends" = Some VNil.

(** Some field of some service fails to interpolate with [e]. *)
Definition fieldFails {EnvironmentLookup : Type}
    (Interpolate : string -> Value -> EnvironmentLookup -> result error Value)
    (raw : RawServiceMap) (environmentLookup : EnvironmentLookup) (e : error)
    : Prop :=
  exists name data k v,
    raw !! name = Some data /\ data !! k = Some v
    /\ Interpolate k v environmentLookup = Err e.

(** *** Further samples *)

Module SampleMore.

Import SampleEngine.

Definition v1Manifest : string := "web: {image: busybox, restart: always}".
Definition v4Manifest : string :=
  "{version: '4', services: {web: {image: busybox}}}".
Definition nullExtendsManifest : string :=
  "{version: '2', services: {web: {extends: ~, image: busybox}}}".
Definition shorthandManifest : string :=
  "{version: '2', services: {web: {extends: base, image: busybox}}}".

(** The first decoding: the manifest of version 1 has no version and no
    services section. *)
Definition configs : list (string * Config) :=
  [ (v1Manifest, mkConfig "" ∅ None None);
    (v4Manifest,
     mkConfig "4" {[ "web" := {[ "image" := VStr "busybox" ]} ]} None None);
    (nullExtendsManifest,
     mkConfig "2"
       {[ "web" := {[ "extends" := VNil; "image" := VStr "busybox" ]} ]}
       None None);
    (shorthandManifest,
     mkConfig "2"
       {[ "web" := {[ "extends" := VStr "base"; "image" := VStr "busybox" ]} ]}
       None None) ]
  ++ documents.

(** The second decoding, as a flat map of services. *)
Definition flatServices : list (string * RawServiceMap) :=
  [ (v1Manifest,
     {[ "web" := {[ "image" := VStr "busybox"; "restart" := VStr "always" ]} ]}) ].

Definition loadManifest : string -> result error Config :=
  CreateConfig (decoder configs) (decoder flatServices).

(** An adapter and a conversion that fail whenever they are called. *)
Definition failingAdapter {A : Type} (existing : unit) (lookup : unit)
    (resourceLookup : option ResourceLookup) (file : string)
    (raw : RawServiceMap) (options : ParseOptions.t) : result error A :=
  Err (Foreign "adapter called").

Definition failingConversion (configsV1 : ServiceMap) : result error ServiceMap :=
  Err (Foreign "conversion called").

(** An interpolation that fails on every value. *)
Definition failingInterpolate (key : string) (value : Value) (lookup : unit)
    : result error Value :=
  Err (Foreign "interpolation called").

(** An interpolation that fails on a bare string under "extends" alone. *)
Definition noShorthand (key : string) (value : Value) (lookup : unit)
    : result error Value :=
  match value with
  | VStr s => if String.eqb key "extends" then Err (Foreign "shorthand seen")
              else interpolate key value lookup
  | _ => interpolate key value lookup
  end.

Definition runWith
    (Interpolate : string -> Value -> unit -> result error Value)
    (MergeServicesV1 MergeServicesV2 :
       unit -> unit -> option ResourceLookup -> string -> RawServiceMap ->
       ParseOptions.t -> result error ServiceMap)
    (ConvertServices : ServiceMap -> result error ServiceMap) :=
  Merge (EnvironmentLookup := unit) (ServiceConfigs := unit)
    (VolumeConfig := Value) (NetworkConfig := Value)
    (decoder configs) (decoder flatServices) Interpolate
    MergeServicesV1 MergeServicesV2 ConvertServices
    (fun m => Ok (Some m)) (fun m => Ok (Some m)).


(** Env files: one with a comment and blank lines only, one that repeats
    a key, one that is missing. *)
Definition envFiles : ResourceLookup :=
  Sample.memLookup
    [ ("blank.env",
       "# nothing to set" +:+ String Bufio.LF ("   " +:+ String Bufio.LF ""));
      ("twice.env",
       "A=1" +:+ String Bufio.LF ("A=2" +:+ String Bufio.LF "B=3")) ].

Definition blankService : RawService :=
  {[ "image" := VStr "busybox"; "env_file" := VStr "blank.env" ]}.

Definition twiceService : RawService :=
  {[ "env_file" := VSeq [VStr "twice.env"; VStr "twice.env"] ]}.

Definition missingService : RawService :=
  {[ "env_file" := VSeq [VStr "missing.env"; VStr "gone.env"; VStr "twice.env"] ]}.

(** A docker context without a configuration file, and a load. *)
Definition context : DockerCtx.t (ProjectContext := unit)
    (ClientFactoryT := unit) (ConfigFileT := string) (AuthLookupT := unit) :=
  DockerCtx.mk tt tt "/home/user/.docker" None tt.

Definition load (configDir : string) : option string * option error :=
  (Some (configDir +:+ "/config.json"), None).

Definition noLoad (configDir : string) : option string * option error :=
  (None, Some (Foreign "permission denied")).

End SampleMore.

(* ===================================================================== *)
(** * Properties *)
(* ===================================================================== *)

(** ** Ranging over a map *)

Section RangeM.

Context {E A B : Type} (f : string -> A -> result E B).

(** What [rangeM] returns, by lookups: on success every value is the image
    of the value that was there; a failure is the failure of some entry. *)
Lemma rangeM_spec (m : gmap string A) :
  match rangeM f m with
  | Ok m' =>
      (forall k v, m !! k = Some v -> exists v', f k v = Ok v' /\ m' !! k = Some v')
      /\ (forall k, m !! k = None -> m' !! k = None)
  | Err e => exists k v, m !! k = Some v /\ f k v = Err e
  end.
Proof.
  unfold rangeM.
  apply (map_fold_weak_ind (fun r m =>
    match r with
    | Ok m' =>
        (forall k v, m !! k = Some v -> exists v', f k v = Ok v' /\ m' !! k = Some v')
        /\ (forall k, m !! k = None -> m' !! k = None)
    | Err e => exists k v, m !! k = Some v /\ f k v = Err e
    end)).
  - split; [intros k v Hk; rewrite lookup_empty in Hk; discriminate | done].
  - intros i x m0 r Hi IH. destruct r as [done_|e].
    + destruct IH as [IH1 IH2]. destruct (f i x) as [x'|e] eqn:Hf.
      * split.
        -- intros k v Hk. destruct (decide (i = k)) as [->|Hne].
           ++ rewrite lookup_insert_eq in Hk. injection Hk as <-.
              exists x'. by rewrite lookup_insert_eq.
           ++ rewrite lookup_insert_ne in Hk by done.
              rewrite lookup_insert_ne by done. by apply IH1.
        -- intros k Hk. destruct (decide (i = k)) as [->|Hne].
           ++ rewrite lookup_insert_eq in Hk. discriminate.
           ++ rewrite lookup_insert_ne in Hk by done.
              rewrite lookup_insert_ne by done. by apply IH2.
      * exists i, x. by rewrite lookup_insert_eq.
    + destruct IH as (k & v & Hk & Hf). exists k, v. split; [|done].
      rewrite lookup_insert_ne; [done|]. intros ->. congruence.
Qed.

Lemma rangeM_lookup (m : gmap string A) (m'' : gmap string B) k v :
  rangeM f m = Ok m'' -> m !! k = Some v ->
  exists v', f k v = Ok v' /\ m'' !! k = Some v'.
Proof.
  intros Hr Hk. pose proof (rangeM_spec m) as H. rewrite Hr in H.
  by apply H.
Qed.

Lemma rangeM_lookup_None (m : gmap string A) (m'' : gmap string B) k :
  rangeM f m = Ok m'' -> m !! k = None -> m'' !! k = None.
Proof.
  intros Hr Hk. pose proof (rangeM_spec m) as H. rewrite Hr in H.
  by apply H.
Qed.

Lemma rangeM_Err (m : gmap string A) e :
  rangeM f m = Err e -> exists k v, m !! k = Some v /\ f k v = Err e.
Proof.
  intros Hr. pose proof (rangeM_spec m) as H. by rewrite Hr in H.
Qed.

(** The range completes when the body fails on no entry. *)
Lemma rangeM_total (m : gmap string A) :
  (forall k v, m !! k = Some v -> exists v', f k v = Ok v') ->
  exists m', rangeM f m = Ok m'.
Proof.
  intros Hall. destruct (rangeM f m) as [m'|e] eqn:Hr; [by exists m'|].
  apply rangeM_Err in Hr as (k & v & Hk & Hf).
  destruct (Hall k v Hk) as [v' Hv']. congruence.
Qed.

End RangeM.

(** A body that changes nothing and never fails leaves the map as it is. *)
Lemma rangeM_id {E A : Type} (f : string -> A -> result E A) (m : gmap string A) :
  (forall k v, m !! k = Some v -> f k v = Ok v) -> rangeM f m = Ok m.
Proof.
  intros Hid.
  destruct (rangeM_total f m) as [m' Hm'].
  { intros k v Hk. exists v. by apply Hid. }
  rewrite Hm'. f_equal. apply map_eq. intros k.
  destruct (m !! k) as [v|] eqn:Hk.
  - destruct (rangeM_lookup f m m' k v Hm' Hk) as (v' & Hf & Hl).
    rewrite (Hid k v Hk) in Hf. congruence.
  - by apply (rangeM_lookup_None f m m' k Hm').
Qed.

(** ** The extends normalizer *)

(** Only the field "extends" is looked at. *)
Lemma normalizeExtendsField_other key value :
  key <> "extends" -> normalizeExtendsField key value = Ok value.
Proof.
  intros Hne. unfold normalizeExtendsField.
  destruct (String.eqb_spec key "extends"); [done|reflexivity].
Qed.

Lemma normalizeExtendsField_extends value :
  normalizeExtendsField "extends" value =
    match value with
    | VNil => Err nilKindPanic
    | VStr s => Ok (VMap {[ "service" := VStr s ]})
    | _ => Ok value
    end.
Proof. by destruct value. Qed.

Lemma normalizeExtendsService_extends (data : RawService) (value : Value) :
  data !! "extends" = Some value ->
  normalizeExtendsService data = normalizedExtends data value.
Proof.
  intros He. unfold normalizeExtendsService.
  destruct (rangeM normalizeExtendsField data) as [data'|msg] eqn:Hr.
  - destruct (rangeM_lookup _ _ _ _ _ Hr He) as (v' & Hf & Hv').
    rewrite normalizeExtendsField_extends in Hf.
    assert (Hrest : forall k, k <> "extends" -> data' !! k = data !! k).
    { intros k Hk. destruct (data !! k) as [v|] eqn:Hd.
      - destruct (rangeM_lookup _ _ _ _ _ Hr Hd) as (w & Hw & Hl).
        rewrite normalizeExtendsField_other in Hw by done. congruence.
      - by apply (rangeM_lookup_None _ _ _ _ Hr). }
    assert (Hmap : data' = <["extends" := v']> data).
    { apply map_eq. intros k. destruct (decide (k = "extends")) as [->|Hk].
      - by rewrite lookup_insert_eq.
      - rewrite lookup_insert_ne by done. by apply Hrest. }
    destruct value; simpl; try discriminate; injection Hf as <-;
      rewrite Hmap; try done; by rewrite insert_id.
  - apply rangeM_Err in Hr as (k & v & Hk & Hf).
    destruct (decide (k = "extends")) as [->|Hne].
    + rewrite He in Hk. injection Hk as <-.
      rewrite normalizeExtendsField_extends in Hf.
      destruct value; simpl; try discriminate. congruence.
    + rewrite normalizeExtendsField_other in Hf by done. discriminate.
Qed.

(** A service without "extends" is left as it is. *)
Lemma normalizeExtendsService_absent (data : RawService) :
  data !! "extends" = None -> normalizeExtendsService data = Ok data.
Proof.
  intros He. apply rangeM_id. intros k v Hk.
  apply normalizeExtendsField_other. intros ->. congruence.
Qed.

(** The loop over the services panics exactly when some service has a null
    "extends"; otherwise every service is normalized on its own. *)
Lemma normalizeExtends_total (raw : RawServiceMap) :
  (forall name data, raw !! name = Some data -> data !! "extends" <> Some VNil) ->
  exists raw', normalizeExtends raw = Ok raw'
    /\ forall name data, raw !! name = Some data ->
         exists data', normalizeExtendsService data = Ok data'
                       /\ raw' !! name = Some data'.
Proof.
  intros Hnn. unfold normalizeExtends.
  destruct (rangeM_total (fun _ data => normalizeExtendsService data) raw)
    as [raw' Hr].
  - intros name data Hs. destruct (data !! "extends") as [v|] eqn:He.
    + rewrite (normalizeExtendsService_extends data v He).
      destruct v; simpl; eauto. exfalso. by apply (Hnn name data Hs).
    + rewrite normalizeExtendsService_absent by done. eauto.
  - exists raw'. split; [done|]. intros name data Hs.
    apply (rangeM_lookup _ _ _ _ _ Hr Hs).
Qed.

(** C5: the loop that runs before the merge rewrites a bare string under
    "extends" to the mapping from "service" to that string and leaves an
    "extends" that is already a mapping, with the whole service, as it is,
    whatever the other fields hold; so the shorthand and the structured form
    of one reference leave the loop as the same service.  What the loop does
    to one service is what the services of a manifest hold after it. *)
Theorem extends_shorthand_normalized
    (data : RawService) (base : string) (m : gmap string Value) :
  (data !! "extends" = Some (VStr base) ->
     normalizeExtendsService data
       = Ok (<["extends" := VMap {[ "service" := VStr base ]}]> data))
  /\ (data !! "extends" = Some (VMap m) -> normalizeExtendsService data = Ok data)
  /\ normalizeExtendsService (<["extends" := VStr base]> data)
     = normalizeExtendsService
         (<["extends" := VMap {[ "service" := VStr base ]}]> data)
  /\ (forall (raw raw' : RawServiceMap) (name : string),
        normalizeExtends raw = Ok raw' -> raw !! name = Some data ->
        exists data', normalizeExtendsService data = Ok data'
                      /\ raw' !! name = Some data').
Proof.
  split; [|split; [|split]].
  - intros He. by rewrite (normalizeExtendsService_extends _ _ He).
  - intros He. by rewrite (normalizeExtendsService_extends _ _ He).
  - rewrite (normalizeExtendsService_extends _ (VStr base))
      by apply lookup_insert_eq.
    rewrite (normalizeExtendsService_extends _
               (VMap {[ "service" := VStr base ]})) by apply lookup_insert_eq.
    simpl. by rewrite insert_insert_eq.
  - intros raw raw' name Hpass Hname.
    apply (rangeM_lookup _ _ _ _ _ Hpass Hname).
Qed.

Lemma extends_shorthand_normalized_witness :
  normalizeExtendsService
    {[ "extends" := VStr "base"; "image" := VStr "busybox" ]}
  = Ok {[ "extends" := VMap {[ "service" := VStr "base" ]};
          "image" := VStr "busybox" ]}
  /\ normalizeExtendsService
       {[ "extends" := VMap {[ "service" := VStr "base" ]};
          "image" := VStr "busybox" ]}
     = Ok {[ "extends" := VMap {[ "service" := VStr "base" ]};
             "image" := VStr "busybox" ]}.
Proof.
  split.
  - rewrite (proj1 (extends_shorthand_normalized
               {[ "extends" := VStr "base"; "image" := VStr "busybox" ]}
               "base" ∅)); [|reflexivity].
    reflexivity.
  - apply (proj1 (proj2 (extends_shorthand_normalized
               {[ "extends" := VMap {[ "service" := VStr "base" ]};
                  "image" := VStr "busybox" ]}
               "base" {[ "service" := VStr "base" ]}))).
    reflexivity.
Defined.

(** ** Version classification *)

(** *** What [Atoi] does with integer tokens *)

Lemma isDigit_range c : isDigit c = true -> 0 <= byteZ c - 48 <= 9.
Proof. unfold isDigit. lia. Qed.

Lemma digitsValue_ge s : forall n,
  allDigits s = true -> 0 <= n -> n <= digitsValue s n.
Proof.
  induction s as [|c r IH]; intros n Hd Hn; simpl in *; [lia|].
  apply andb_prop in Hd as [Hc Hr]. apply isDigit_range in Hc.
  specialize (IH (n * 10 + (byteZ c - 48)) Hr). lia.
Qed.

Lemma parseUintLoop_digits s : forall n,
  allDigits s = true -> 0 <= n <= maxUint64 ->
  parseUintLoop s n =
    if digitsValue s n <=? maxUint64 then (digitsValue s n, None)
    else (maxUint64, Some ErrRange).
Proof.
  induction s as [|c r IH]; intros n Hd Hn; simpl in *.
  - destruct (Z.leb_spec n maxUint64); [done|lia].
  - apply andb_prop in Hd as [Hc Hr]. pose proof Hc as Hrange.
    apply isDigit_range in Hrange. unfold isDigit in Hc. rewrite Hc.
    pose proof (digitsValue_ge r (n * 10 + (byteZ c - 48)) Hr) as Hge.
    unfold maxUint64 in *.
    destruct (Z.geb_spec n (18446744073709551615 / 10 + 1)) as [Hcut|Hcut].
    + change (18446744073709551615 / 10 + 1) with 1844674407370955162 in Hcut.
      destruct (Z.leb_spec (digitsValue r (n * 10 + (byteZ c - 48)))
                  18446744073709551615); [lia|done].
    + change (18446744073709551615 / 10 + 1) with 1844674407370955162 in Hcut.
      destruct (Z.gtb_spec (n * 10 + (byteZ c - 48)) 18446744073709551615)
        as [Hov|Hov].
      * destruct (Z.leb_spec (digitsValue r (n * 10 + (byteZ c - 48)))
                    18446744073709551615); [lia|done].
      * apply IH; [done|lia].
Qed.

Lemma parseUintLoop_nondigits s : forall n,
  allDigits s = false ->
  parseUintLoop s n = (0, Some ErrSyntax)
  \/ parseUintLoop s n = (maxUint64, Some ErrRange).
Proof.
  induction s as [|c r IH]; intros n Hd; simpl in *; [discriminate|].
  fold (isDigit c). destruct (isDigit c); [|by left]. simpl in Hd.
  destruct (n >=? maxUint64 / 10 + 1); [by right|].
  destruct (n * 10 + (byteZ c - 48) >? maxUint64); [by right|].
  by apply IH.
Qed.

Lemma ParseUint_cases s :
  match decimal s with
  | Some n =>
      0 <= n /\ ParseUint s = if n <=? maxUint64 then (n, None)
                              else (maxUint64, Some ErrRange)
  | None =>
      ParseUint s = (0, Some ErrSyntax)
      \/ ParseUint s = (maxUint64, Some ErrRange)
  end.
Proof.
  destruct s as [|c r]; [by left|].
  unfold decimal, ParseUint.
  destruct (allDigits (String c r)) eqn:Hd.
  - split; [by apply digitsValue_ge|].
    apply parseUintLoop_digits; [done|]. unfold maxUint64. lia.
  - by apply parseUintLoop_nondigits.
Qed.

(** What [ParseInt] makes of the unsigned part [digits] and the sign. *)
Lemma ParseInt_signed (neg : bool) (digits : string) :
  match decimal digits with
  | Some n =>
      match ParseUint digits with
      | (_, Some ErrSyntax) => (0, Some ErrSyntax)
      | (un, _) =>
          if negb neg && (un >=? intCutoff) then (intCutoff - 1, Some ErrRange)
          else if neg && (un >? intCutoff) then (- intCutoff, Some ErrRange)
          else (if neg then - un else un, None)
      end
      = if neg then (if n <=? intCutoff then (- n, None)
                     else (- intCutoff, Some ErrRange))
        else (if n <? intCutoff then (n, None)
              else (intCutoff - 1, Some ErrRange))
  | None =>
      exists v k,
      match ParseUint digits with
      | (_, Some ErrSyntax) => (0, Some ErrSyntax)
      | (un, _) =>
          if negb neg && (un >=? intCutoff) then (intCutoff - 1, Some ErrRange)
          else if neg && (un >? intCutoff) then (- intCutoff, Some ErrRange)
          else (if neg then - un else un, None)
      end = (v, Some k)
  end.
Proof.
  pose proof (ParseUint_cases digits) as H.
  destruct (decimal digits) as [n|].
  - destruct H as [Hn ->]. unfold maxUint64, intCutoff in *.
    destruct (Z.leb_spec n 18446744073709551615) as [Hle|Hgt].
    + destruct neg; simpl.
      * destruct (Z.gtb_spec n 9223372036854775808),
                 (Z.leb_spec n 9223372036854775808); try lia; done.
      * destruct (Z.geb_spec n 9223372036854775808),
                 (Z.ltb_spec n 9223372036854775808); try lia; done.
    + destruct neg; simpl.
      * destruct (Z.leb_spec n 9223372036854775808); [lia|done].
      * destruct (Z.ltb_spec n 9223372036854775808); [lia|done].
  - destruct H as [-> | ->]; [by eauto|].
    destruct neg; simpl; eauto.
Qed.

(** [ParseInt] accepts exactly the integer tokens, with their value. *)
Lemma ParseInt_spec s :
  match intToken s with
  | Some v => ParseInt s = (v, None)
  | None => exists n k, ParseInt s = (n, Some k)
  end.
Proof.
  destruct s as [|c r]; [by (do 2 eexists)|].
  unfold intToken, ParseInt.
  destruct (byte_eqb c "-") eqn:Hneg.
  - rewrite orb_true_r.
    pose proof (ParseInt_signed true r) as H.
    destruct (decimal r) as [n|].
    + rewrite H. destruct (n <=? intCutoff); [done|by (do 2 eexists)].
    + exact H.
  - rewrite orb_false_r.
    pose proof (ParseInt_signed false (if byte_eqb c "+" then r else String c r))
      as H.
    destruct (decimal (if byte_eqb c "+" then r else String c r)) as [n|].
    + rewrite H. destruct (n <? intCutoff); [done|by (do 2 eexists)].
    + exact H.
Qed.

Lemma Atoi_spec s :
  match intToken s with
  | Some v => Atoi s = (v, None)
  | None => exists n k, Atoi s = (n, Some (NumError "Atoi" s k))
  end.
Proof.
  pose proof (ParseInt_spec s) as H. unfold Atoi.
  destruct (intToken s) as [v|].
  - by rewrite H.
  - destruct H as (n & k & ->). by exists n, k.
Qed.

(** *** The classification, shape by shape *)

Lemma Split_length s c : length (Split s c) = S (countByte s c).
Proof.
  induction s as [|b r IH]; simpl; [done|].
  destruct (byte_eqb b c); simpl; [by rewrite IH|].
  destruct (Split r c); simpl in *; [discriminate|done].
Qed.

Lemma Split_head s c : List.nth 0 (Split s c) "" = beforeByte s c.
Proof.
  induction s as [|b r IH]; simpl; [done|].
  destruct (byte_eqb b c); simpl; [done|].
  destruct (Split r c) as [|h t] eqn:Hs; simpl in *.
  - pose proof (Split_length r c) as Hl. rewrite Hs in Hl. discriminate.
  - by rewrite IH.
Qed.

(** The classification, shape by shape: the first token alone decides the
    result of a string with one dot. *)
Lemma getComposeMajorVersion_shapes (version : string) :
  getComposeMajorVersion version =
    match shapeOf version with
    | NoVersion => (1, None)
    | OneToken => Atoi version
    | TwoTokens first => Atoi first
    | ManyTokens => (-1, Some (Errorf (invalidVersionMsg version)))
    end.
Proof.
  unfold getComposeMajorVersion, shapeOf.
  destruct (String.eqb version ""); [done|].
  rewrite Split_length, Split_head.
  by destruct (countByte version ".") as [|[|n]].
Qed.

(** On the tokens: the integer of an integer token, an error of [Atoi] for
    any other text. *)
Lemma getComposeMajorVersion_tokens (version : string) :
  match shapeOf version with
  | NoVersion => getComposeMajorVersion version = (1, None)
  | OneToken =>
      match intToken version with
      | Some n => getComposeMajorVersion version = (n, None)
      | None => exists n k, getComposeMajorVersion version
                            = (n, Some (NumError "Atoi" version k))
      end
  | TwoTokens first =>
      match intToken first with
      | Some n => getComposeMajorVersion version = (n, None)
      | None => exists n k, getComposeMajorVersion version
                            = (n, Some (NumError "Atoi" first k))
      end
  | ManyTokens =>
      getComposeMajorVersion version
        = (-1, Some (Errorf (invalidVersionMsg version)))
  end.
Proof.
  rewrite getComposeMajorVersion_shapes.
  destruct (shapeOf version) as [| |first|]; try done.
  - apply Atoi_spec.
  - apply Atoi_spec.
Qed.

Example version_empty : getComposeMajorVersion "" = (1, None).
Proof. reflexivity. Qed.

Example version_2 : getComposeMajorVersion "2" = (2, None).
Proof. reflexivity. Qed.

Example version_2_1 : getComposeMajorVersion "2.1" = (2, None).
Proof. reflexivity. Qed.

Example version_1_2_3 :
  getComposeMajorVersion "1.2.3"
  = (-1, Some (Errorf "Invalid version string, expected single integer or dot delimited int.int. Got: 1.2.3")).
Proof. reflexivity. Qed.

(** C4: a version of two dot-delimited tokens whose second token is no
    integer is classified by its first token, with no error: "2.x" and "2."
    are major version 2, although "x" and the empty text are no integer
    tokens.  The message of the function's own error asks for int.int. *)
Theorem version_second_token_unchecked :
  getComposeMajorVersion "2.x" = (2, None)
  /\ getComposeMajorVersion "2." = (2, None)
  /\ intToken "x" = None /\ intToken "" = None
  /\ shapeOf "2.x" = TwoTokens "2".
Proof. repeat split; reflexivity. Qed.

(** ** mergeConfig *)

Section MergeConfigFacts.

Variable mergeValues : Value -> Value -> Value.

(** The merged service, field by field. *)
Lemma mergeConfig_lookup (baseService serviceData : RawService) (k : string) :
  mergeConfig mergeValues baseService serviceData !! k =
    match serviceData !! k with
    | None => baseService !! k
    | Some v =>
        match baseService !! k with
        | None => Some v
        | Some existing => Some (mergeValues existing v)
        end
    end.
Proof.
  revert k. unfold mergeConfig.
  apply (map_fold_weak_ind (fun acc (m : RawService) =>
    forall k, acc !! k =
      match m !! k with
      | None => baseService !! k
      | Some v =>
          match baseService !! k with
          | None => Some v
          | Some existing => Some (mergeValues existing v)
          end
      end)).
  - intros k. by rewrite lookup_empty.
  - intros i x m acc Hi IH k.
    pose proof (IH i) as Hacc. rewrite Hi in Hacc. rewrite Hacc.
    destruct (decide (i = k)) as [->|Hne].
    + rewrite lookup_insert_eq.
      destruct (baseService !! k); by rewrite lookup_insert_eq.
    + rewrite (lookup_insert_ne m) by done. rewrite <- IH.
      destruct (baseService !! i); by rewrite lookup_insert_ne.
Qed.

(** [mergeConfig] hands the two values of a field to [merge] and never
    the name of the field: under every name the result is the same. *)
Lemma mergeConfig_field_blind (k : string) (existing v : Value) :
  mergeConfig mergeValues {[ k := existing ]} {[ k := v ]} !! k
  = Some (mergeValues existing v).
Proof. by rewrite mergeConfig_lookup, !lookup_singleton_eq. Qed.

End MergeConfigFacts.

(** Whatever [merge] is: when it concatenates the two sequences of "ports",
    it concatenates the two sequences of "links" as well. *)
Lemma mergeConfig_links_as_ports (f : Value -> Value -> Value) (l r : list Value) :
  mergeConfig f {[ "ports" := VSeq l ]} {[ "ports" := VSeq r ]} !! "ports"
    = Some (VSeq (l ++ r)) ->
  mergeConfig f {[ "links" := VSeq l ]} {[ "links" := VSeq r ]} !! "links"
    = Some (VSeq (l ++ r)).
Proof. by rewrite !mergeConfig_field_blind. Qed.

(** *** The values, as section 4.4 has them *)

Lemma merge_sequences (l r : list Value) : merge (VSeq l) (VSeq r) = VSeq (l ++ r).
Proof. reflexivity. Qed.

Lemma merge_mappings (l r : gmap string Value) :
  exists m, merge (VMap l) (VMap r) = VMap m
    /\ forall k, m !! k =
         match l !! k, r !! k with
         | Some e, Some v => Some (merge e v)
         | Some e, None => Some e
         | None, o => o
         end.
Proof.
  eexists. split; [reflexivity|]. intros k.
  rewrite lookup_union, map_lookup_imap, lookup_fmap.
  destruct (l !! k) as [e|]; simpl.
  - destruct (r !! k) as [v|]; reflexivity.
  - by destruct (r !! k).
Qed.

Lemma merge_otherwise (existing value : Value) :
  sameContainer existing value = false -> merge existing value = value.
Proof. by destruct existing, value. Qed.

(** The fields that [noMerge] lists are merged like the others. *)
Lemma mergeConfig_noMerge_concatenated (l r : list Value) :
  Forall (fun k =>
            mergeConfig merge {[ k := VSeq l ]} {[ k := VSeq r ]} !! k
            = Some (VSeq (l ++ r)))
         noMerge.
Proof. repeat constructor; by rewrite mergeConfig_field_blind. Qed.

(** C1 (as amended): a field of the incoming service that the base lacks is
    set into the base as it is; for a field that both have, the two values
    are merged: two sequences concatenate, the base elements first, two
    mappings merge key by key with the same rule, and in every other case
    the incoming value is the result.  The rule is the same for every field,
    "links" and "volumes_from" included. *)
Theorem mergeConfig_policy
    (baseService serviceData : RawService) (k : string) (v : Value)
    (Hin : serviceData !! k = Some v) :
  match baseService !! k with
  | None => mergeConfig merge baseService serviceData !! k = Some v
  | Some existing =>
      mergeConfig merge baseService serviceData !! k = Some (merge existing v)
      /\ match existing, v with
         | VSeq l, VSeq r => merge existing v = VSeq (l ++ r)
         | VMap l, VMap r =>
             exists m, merge existing v = VMap m
               /\ forall key, m !! key =
                    match l !! key, r !! key with
                    | Some e', Some v' => Some (merge e' v')
                    | Some e', None => Some e'
                    | None, o => o
                    end
         | _, _ => merge existing v = v
         end
  end.
Proof.
  rewrite mergeConfig_lookup, Hin.
  destruct (baseService !! k) as [existing|]; [|done].
  split; [done|].
  destruct existing, v; try reflexivity. apply merge_mappings.
Qed.

Lemma mergeConfig_policy_witness :
  mergeConfig merge
    {[ "links" := VSeq [VStr "y"]; "image" := VStr "a" ]}
    {[ "links" := VSeq [VStr "x"]; "image" := VStr "b" ]} !! "links"
  = Some (VSeq [VStr "y"; VStr "x"]).
Proof.
  pose proof (mergeConfig_policy
    {[ "links" := VSeq [VStr "y"]; "image" := VStr "a" ]}
    {[ "links" := VSeq [VStr "x"]; "image" := VStr "b" ]}
    "links" (VSeq [VStr "x"]) eq_refl) as H.
  exact (proj1 H).
Defined.

(** C1, as it was stated, fails: the incoming "links" does not replace the
    base "links", the two sequences concatenate like any others. *)
Lemma mergeConfig_links_not_replaced :
  mergeConfig merge {[ "links" := VSeq [VStr "y"] ]}
                    {[ "links" := VSeq [VStr "x"] ]} !! "links"
    = Some (VSeq [VStr "y"; VStr "x"])
  /\ mergeConfig merge {[ "links" := VSeq [VStr "y"] ]}
                       {[ "links" := VSeq [VStr "x"] ]} !! "links"
    <> Some (VSeq [VStr "x"]).
Proof.
  rewrite mergeConfig_field_blind. split; [reflexivity|discriminate].
Qed.

(** ** readEnvFile *)

Lemma HasPrefix_empty s : HasPrefix s "" = true.
Proof. by destruct s. Qed.

Lemma HasPrefix_SplitAfter0 line c : HasPrefix line (SplitAfter0 line c) = true.
Proof.
  induction line as [|b r IH]; simpl; [done|].
  destruct (byte_eqb b c) eqn:Hb; simpl; unfold byte_eqb in *;
    rewrite Ascii.eqb_refl; simpl; [apply HasPrefix_empty|exact IH].
Qed.

Section EnvFileFacts.

Variable convertStringorslice : Value -> result error (list string).
Variable convertMaporEqualSlice : Value -> result error (list string).
Variable TrimSpace : string -> string.

Lemma foundPrefix_app vars1 vars2 key :
  foundPrefix (vars1 ++ vars2) key
  = foundPrefix vars1 key || foundPrefix vars2 key.
Proof.
  induction vars1 as [|v rest IH]; simpl; [done|].
  by destruct (HasPrefix v key).
Qed.

Lemma scanLine_usefulLine vars text :
  scanLine TrimSpace vars text =
    match usefulLine TrimSpace text with
    | Some line => claim vars line
    | None => vars
    end.
Proof.
  unfold scanLine, usefulLine, claim, keyOf.
  destruct ((len (TrimSpace text) >? 0) && negb (HasPrefix (TrimSpace text) "#"));
    [|done].
  by destruct (foundPrefix vars (SplitAfter0 (TrimSpace text) "=")).
Qed.

Lemma fold_scanLine tokens : forall vars,
  fold_left (scanLine TrimSpace) tokens vars
  = fold_left claim (omap (usefulLine TrimSpace) tokens) vars.
Proof.
  induction tokens as [|t rest IH]; intros vars; simpl; [done|].
  rewrite scanLine_usefulLine. destruct (usefulLine TrimSpace t); simpl; apply IH.
Qed.

Lemma scanFile_ok content vars :
  snd (Bufio.ScanLines content) = None ->
  scanFile TrimSpace content vars
  = Ok (fold_left claim
          (omap (usefulLine TrimSpace) (fst (Bufio.ScanLines content))) vars).
Proof.
  unfold scanFile. destruct (Bufio.ScanLines content) as [tokens err]; simpl.
  intros ->. by rewrite fold_scanLine.
Qed.

Lemma scanFile_failed content vars e :
  snd (Bufio.ScanLines content) = Some e ->
  scanFile TrimSpace content vars = Err e.
Proof.
  unfold scanFile. destruct (Bufio.ScanLines content) as [tokens err]; simpl.
  by intros ->.
Qed.

(** The loop over the env files, from the last one down to the first. *)
Lemma envFilesLoop_ok resourceLookup inFile envFiles : forall n vars,
  (n <= length envFiles)%nat ->
  (forall file, file ∈ take n envFiles -> readable resourceLookup inFile file) ->
  envFilesLoop TrimSpace resourceLookup inFile envFiles n vars
  = Ok (fold_left claim
          (flat_map (fileLines TrimSpace resourceLookup inFile)
             (rev (take n envFiles)))
          vars).
Proof.
  induction n as [|i IH]; intros vars Hn Hread; simpl; [done|].
  destruct (lookup_lt_is_Some_2 envFiles i) as [file Hfile]; [lia|].
  rewrite nth_lookup, Hfile. simpl.
  rewrite (take_S_r _ _ _ Hfile) in Hread |- *.
  destruct (Hread file) as (content & path & Hlook & Hscan).
  { apply elem_of_app. right. by apply list_elem_of_singleton. }
  assert (Hlines : fileLines TrimSpace resourceLookup inFile file
                   = omap (usefulLine TrimSpace)
                       (fst (Bufio.ScanLines content))).
  { unfold fileLines. by rewrite Hlook. }
  rewrite Hlook, (scanFile_ok _ _ Hscan).
  rewrite IH; [|lia|].
  - rewrite rev_unit. cbn [flat_map]. by rewrite fold_left_app, Hlines.
  - intros f Hf. apply Hread, elem_of_app. by left.
Qed.

(** What a run of claims adds to the entries. *)
Lemma claims_extend cands : forall vars,
  exists extra,
    fold_left claim cands vars = vars ++ extra
    /\ extra `sublist_of` cands
    /\ (forall a line b, extra = a ++ line :: b ->
          foundPrefix (vars ++ a) (keyOf line) = false)
    /\ (forall c, c ∈ cands -> foundPrefix (vars ++ extra) (keyOf c) = true).
Proof.
  induction cands as [|c cs IH]; intros vars; simpl.
  - exists []. rewrite app_nil_r. repeat split; [done| |].
    + intros a line b H. by destruct a.
    + intros c Hc. by apply elem_of_nil in Hc.
  - unfold claim at 2. destruct (foundPrefix vars (keyOf c)) eqn:Hfound.
    + destruct (IH vars) as (extra & Heq & Hsub & Hfree & Hall).
      exists extra. repeat split; [done|by apply sublist_cons|done|].
      intros c' [->|Hc']%elem_of_cons; [|by apply Hall].
      by rewrite foundPrefix_app, Hfound.
    + destruct (IH (vars ++ [c])) as (extra & Heq & Hsub & Hfree & Hall).
      exists (c :: extra). repeat split.
      * by rewrite Heq, <- app_assoc.
      * by apply sublist_skip.
      * intros a line b Hsplit. destruct a as [|c' a]; simpl in Hsplit.
        -- injection Hsplit as -> _. by rewrite app_nil_r.
        -- injection Hsplit as -> Hrest.
           specialize (Hfree a line b Hrest).
           by rewrite <- app_assoc in Hfree.
      * intros c' [->|Hc']%elem_of_cons.
        -- rewrite foundPrefix_app. simpl. unfold keyOf.
           rewrite HasPrefix_SplitAfter0. apply orb_true_r.
        -- specialize (Hall c' Hc'). by rewrite <- app_assoc in Hall.
Qed.

(** C9: a service without "env_file", and a service whose "env_file"
    converts to the empty sequence, is returned as it is, with no error. *)
Theorem readEnvFile_unchanged
    (resourceLookup : option ResourceLookup) (inFile : string)
    (serviceData : RawService)
    (Hnone : match serviceData !! "env_file" with
             | None => True
             | Some envFileValue => convertStringorslice envFileValue = Ok []
             end) :
  readEnvFile convertStringorslice convertMaporEqualSlice TrimSpace
    resourceLookup inFile serviceData = Ok serviceData.
Proof.
  unfold readEnvFile.
  destruct (serviceData !! "env_file") as [envFileValue|]; [|done].
  by rewrite Hnone.
Qed.

(** C8: with an "env_file" that converts to a sequence that is not empty
    and no resource lookup, the result is the error whose message names the
    manifest file. *)
Theorem readEnvFile_no_lookup
    (inFile : string) (serviceData : RawService)
    (envFileValue : Value) (envFiles : list string)
    (Hfield : serviceData !! "env_file" = Some envFileValue)
    (Hconv : convertStringorslice envFileValue = Ok envFiles)
    (Hne : envFiles <> []) :
  readEnvFile convertStringorslice convertMaporEqualSlice TrimSpace
    None inFile serviceData
  = Err (Errorf ("Can not use env_file in file " +:+ inFile
                   +:+ " no mechanism provided to load files")).
Proof.
  unfold readEnvFile. rewrite Hfield, Hconv.
  destruct envFiles as [|f rest]; [done|reflexivity].
Qed.

(** An "environment" that does not convert is an error of its own, before
    any env file is looked up. *)
Lemma readEnvFile_environment_error
    (resourceLookup : ResourceLookup) (inFile : string)
    (serviceData : RawService)
    (envFileValue environment : Value) (envFiles : list string) (e : error) :
  serviceData !! "env_file" = Some envFileValue ->
  convertStringorslice envFileValue = Ok envFiles ->
  envFiles <> [] ->
  serviceData !! "environment" = Some environment ->
  convertMaporEqualSlice environment = Err e ->
  readEnvFile convertStringorslice convertMaporEqualSlice TrimSpace
    (Some resourceLookup) inFile serviceData = Err e.
Proof.
  intros Hfield Hconv Hne Henv He. unfold readEnvFile.
  rewrite Hfield, Hconv, Henv, He.
  by destruct envFiles.
Qed.

(** C2 (as amended): for a service whose "env_file" converts to a sequence
    that is not empty, whose "environment", when it has one, converts to
    entries, with a resource lookup that succeeds on every env file and env
    files that the scanner reads to their end, the environment written back
    begins with the explicit entries; what follows are lines of the env
    files, met in reverse declaration order (the last file first) and in the
    order of each file; a line is added exactly when no entry before it, be
    it explicit or added, has the key of the line as a prefix; and every
    line of every file finds its key among the entries in the end. *)
Theorem readEnvFile_precedence
    (resourceLookup : ResourceLookup) (inFile : string)
    (serviceData : RawService)
    (envFileValue : Value) (envFiles explicit : list string)
    (Hfield : serviceData !! "env_file" = Some envFileValue)
    (Hconv : convertStringorslice envFileValue = Ok envFiles)
    (Hne : envFiles <> [])
    (Henv : match serviceData !! "environment" with
            | Some environment => convertMaporEqualSlice environment
            | None => Ok []
            end = Ok explicit)
    (Hread : forall file, file ∈ envFiles ->
               readable resourceLookup inFile file) :
  exists extra,
    readEnvFile convertStringorslice convertMaporEqualSlice TrimSpace
      (Some resourceLookup) inFile serviceData
    = Ok (<["environment" := VStrings (explicit ++ extra)]> serviceData)
    /\ explicit ++ extra
       = fold_left claim (candidates TrimSpace resourceLookup inFile envFiles) explicit
    /\ extra `sublist_of` candidates TrimSpace resourceLookup inFile envFiles
    /\ (forall a line b, extra = a ++ line :: b ->
          foundPrefix (explicit ++ a) (keyOf line) = false)
    /\ (forall c, c ∈ candidates TrimSpace resourceLookup inFile envFiles ->
          foundPrefix (explicit ++ extra) (keyOf c) = true).
Proof.
  destruct (claims_extend (candidates TrimSpace resourceLookup inFile envFiles) explicit)
    as (extra & Heq & Hsub & Hfree & Hall).
  exists extra. repeat split; try done.
  unfold readEnvFile. rewrite Hfield, Hconv.
  destruct envFiles as [|f rest] eqn:Hfiles; [done|]. rewrite <- Hfiles in *.
  replace (length envFiles =? 0)%nat with false by (by rewrite Hfiles).
  rewrite Henv.
  rewrite envFilesLoop_ok; [|lia|].
  - rewrite firstn_all. fold (candidates TrimSpace resourceLookup inFile envFiles).
    by rewrite Heq.
  - intros file Hin. apply Hread. by rewrite firstn_all in Hin.
Qed.

End EnvFileFacts.

(** *** The resolver on sample files *)

Lemma readEnvFile_unchanged_witness :
  sampleReadEnvFile None "compose.yml" {[ "image" := VStr "busybox" ]}
    = Ok {[ "image" := VStr "busybox" ]}
  /\ sampleReadEnvFile None "compose.yml"
       {[ "image" := VStr "busybox"; "env_file" := VSeq [] ]}
     = Ok {[ "image" := VStr "busybox"; "env_file" := VSeq [] ]}.
Proof.
  split.
  - apply (readEnvFile_unchanged Sample.stringorslice
             Sample.maporEqualSlice Sample.trimSpace None "compose.yml"
             {[ "image" := VStr "busybox" ]}).
    vm_compute. exact I.
  - apply (readEnvFile_unchanged Sample.stringorslice
             Sample.maporEqualSlice Sample.trimSpace None "compose.yml"
             {[ "image" := VStr "busybox"; "env_file" := VSeq [] ]}).
    vm_compute. reflexivity.
Defined.

Lemma readEnvFile_no_lookup_witness :
  sampleReadEnvFile None "compose.yml" webService
  = Err (Errorf "Can not use env_file in file compose.yml no mechanism provided to load files").
Proof.
  apply (readEnvFile_no_lookup Sample.stringorslice
           Sample.maporEqualSlice Sample.trimSpace "compose.yml"
           webService (VSeq [VStr "f1"; VStr "f2"]) ["f1"; "f2"]).
  - reflexivity.
  - reflexivity.
  - discriminate.
Defined.

Lemma webFiles_readable file :
  file ∈ ["f1"; "f2"] ->
  readable webFiles "compose.yml" file.
Proof.
  intros Hin. apply elem_of_cons in Hin as [->|Hin];
    [|apply list_elem_of_singleton in Hin as ->].
  - exists "A=2", "f1". split; reflexivity.
  - exists "B=3", "f2". split; reflexivity.
Qed.

(** Section 8: the explicit entry A=1 wins over A=2 of f1, and B=3 of f2,
    the file listed last, is added. *)
Lemma readEnvFile_precedence_witness :
  sampleReadEnvFile (Some webFiles) "compose.yml" webService
  = Ok (<["environment" := VStrings ["A=1"; "B=3"]]> webService).
Proof.
  destruct (readEnvFile_precedence Sample.stringorslice
              Sample.maporEqualSlice Sample.trimSpace
              webFiles "compose.yml" webService
              (VSeq [VStr "f1"; VStr "f2"]) ["f1"; "f2"] ["A=1"]
              eq_refl eq_refl ltac:(discriminate) eq_refl webFiles_readable)
    as (extra & Hres & Hextra & _).
  unfold sampleReadEnvFile. rewrite Hres, Hextra. reflexivity.
Defined.

(** C2, as it was stated, fails: the "env_file" is not empty and the lookup
    succeeds, and no environment is produced, the scanner's error is
    returned. *)
Lemma readEnvFile_line_too_long :
  Sample.stringorslice (VSeq [VStr "big.env"]) = Ok ["big.env"]
  /\ Lookup (Sample.memLookup [("big.env", oversizedLine)]) "big.env" "compose.yml"
     = Ok (oversizedLine, "big.env")
  /\ sampleReadEnvFile (Some (Sample.memLookup [("big.env", oversizedLine)]))
       "compose.yml" {[ "env_file" := VSeq [VStr "big.env"] ]}
     = Err ErrTooLong.
Proof. repeat split; vm_compute; reflexivity. Qed.

(** ** adjustValues *)



Lemma adjustRestart_not_false (v : ServiceConfig) :
  Restart (adjustRestart v) <> "false".
Proof.
  unfold adjustRestart.
  destruct (String.eqb_spec (Restart v) "false"); [discriminate|done].
Qed.

(** After the pass no entry has the restart policy "false". *)
Lemma adjustValues_no_false (configs : ServiceMap)
    (adjusted : gmap string ServiceConfig) (name : string) (v : ServiceConfig) :
  adjustValues configs = Some adjusted -> adjusted !! name = Some v ->
  Restart v <> "false".
Proof.
  destruct configs as [m|]; simpl; [|discriminate].
  intros [= <-]. rewrite lookup_fmap.
  destruct (m !! name) as [v0|]; simpl; [|discriminate].
  intros [= <-]. apply adjustRestart_not_false.
Qed.

(** ** Merge *)

Section MergeFacts.

Context {EnvironmentLookup ServiceConfigs ServiceConfigV1
         VolumeConfig NetworkConfig : Type}.
Variable yamlUnmarshalConfig : string -> result error Config.
Variable yamlUnmarshalServices : string -> result error RawServiceMap.
Variable Interpolate :
  string -> Value -> EnvironmentLookup -> result error Value.
Variable MergeServicesV1 :
  ServiceConfigs -> EnvironmentLookup -> option ResourceLookup -> string ->
  RawServiceMap -> ParseOptions.t ->
  result error (option (gmap string ServiceConfigV1)).
Variable MergeServicesV2 :
  ServiceConfigs -> EnvironmentLookup -> option ResourceLookup -> string ->
  RawServiceMap -> ParseOptions.t -> result error ServiceMap.
Variable ConvertServices :
  option (gmap string ServiceConfigV1) -> result error ServiceMap.
Variable convertVolumes :
  gmap string Value -> result error (option (gmap string VolumeConfig)).
Variable convertNetworks :
  gmap string Value -> result error (option (gmap string NetworkConfig)).

Abbreviation CreateConfig' := (CreateConfig yamlUnmarshalConfig yamlUnmarshalServices).
Abbreviation dispatch' :=
  (dispatch (VolumeConfig := VolumeConfig) (NetworkConfig := NetworkConfig)
     MergeServicesV1 MergeServicesV2 ConvertServices).
Abbreviation Merge' :=
  (Merge yamlUnmarshalConfig yamlUnmarshalServices Interpolate
     MergeServicesV1 MergeServicesV2 ConvertServices
     convertVolumes convertNetworks).

(** The version switch stops [Merge] with the exit of version 3 or with an
    error return. *)
Lemma dispatch_Err major existingServices environmentLookup resourceLookup
    file baseRawServices options stop :
  dispatch' major existingServices environmentLookup resourceLookup file
    baseRawServices options = Err stop ->
  (major = 3 /\ stop = Exited 1 v3Note) \/ exists e, stop = failed e.
Proof.
  unfold dispatch. destruct (Z.eqb_spec major 3) as [->|Hne].
  - intros [= <-]. by left.
  - intros H. right. repeat case_match; try discriminate;
      injection H as <-; eauto.
Qed.

Lemma dispatch_3 existingServices environmentLookup resourceLookup
    file baseRawServices options :
  dispatch' 3 existingServices environmentLookup resourceLookup file
    baseRawServices options = Err (Exited 1 v3Note).
Proof. reflexivity. Qed.

(** A manifest that decodes and whose version has a major version of 2 or
    more is the configuration of [Merge], its sections defaulted. *)
Lemma CreateConfig_v2 bytes config major :
  yamlUnmarshalConfig bytes = Ok config ->
  getComposeMajorVersion (Version config) = (major, None) ->
  2 <= major ->
  CreateConfig' bytes
  = Ok (mkConfig (Version config) (Services config)
          (Some (default ∅ (Volumes config)))
          (Some (default ∅ (Networks config)))).
Proof.
  intros Hy Hv Hm. unfold CreateConfig. rewrite Hy, Hv.
  by destruct (Z.ltb_spec major 2); [lia|].
Qed.

(** The version of a configuration that [CreateConfig] returns classifies
    without error. *)
Lemma CreateConfig_Version bytes config :
  CreateConfig' bytes = Ok config ->
  exists major, getComposeMajorVersion (Version config) = (major, None).
Proof.
  unfold CreateConfig. intros H.
  destruct (yamlUnmarshalConfig bytes) as [c|]; [|discriminate].
  destruct (getComposeMajorVersion (Version c)) as [major [e|]] eqn:Hv;
    [discriminate|].
  exists major. repeat case_match; try discriminate;
    injection H as <-; simplify_eq; simpl; done.
Qed.

(** C7: a return of [Merge] with an error carries nothing else: the
    version is empty and the three maps are nil. *)
Theorem Merge_error_no_partial_result
    (existingServices : ServiceConfigs) (environmentLookup : EnvironmentLookup)
    (resourceLookup : option ResourceLookup) (file bytes : string)
    (options : option ParseOptions.t)
    (version : string) (services : ServiceMap)
    (volumes : option (gmap string VolumeConfig))
    (networks : option (gmap string NetworkConfig)) (err : error)
    (Hret : Merge' existingServices environmentLookup resourceLookup file
              bytes options
            = Returned version services volumes networks (Some err)) :
  version = "" /\ services = None /\ volumes = None /\ networks = None.
Proof.
  unfold Merge in Hret.
  repeat match type of Hret with
  | context [match ?x with _ => _ end] => destruct x eqn:?
  end;
  try (unfold failed in Hret; injection Hret as <- <- <- <- _; done);
  try discriminate.
  match goal with
  | H : dispatch _ _ _ _ _ _ _ _ _ _ = Err _ |- _ =>
      apply dispatch_Err in H as [[_ ->] | [e' ->]]
  end; [discriminate|].
  unfold failed in Hret. by injection Hret as <- <- <- <- _.
Qed.

(** With a major version of 3, [Merge] ends before or at the version
    switch. *)
Lemma Merge_version3_cases
    (existingServices : ServiceConfigs) (environmentLookup : EnvironmentLookup)
    (resourceLookup : option ResourceLookup) (file bytes : string)
    (options : option ParseOptions.t) (config : Config) :
  yamlUnmarshalConfig bytes = Ok config ->
  getComposeMajorVersion (Version config) = (3, None) ->
  Merge' existingServices environmentLookup resourceLookup file bytes options =
    match normalizeExtends (Services config) with
    | Err msg => Panicked msg
    | Ok normalized =>
        match interpolateAll Interpolate
                (ParseOptions.Interpolate (default defaultParseOptions options))
                environmentLookup normalized (default ∅ (Volumes config))
                (default ∅ (Networks config)) with
        | Err e => failed e
        | Ok (interpolated, _, _) =>
            match match ParseOptions.Preprocess
                          (default defaultParseOptions options) with
                  | Some hook => hook interpolated
                  | None => Ok interpolated
                  end with
            | Err e => failed e
            | Ok _ => Exited 1 v3Note
            end
        end
    end.
Proof.
  intros Hyaml Hmajor.
  pose proof (CreateConfig_v2 bytes config 3 Hyaml Hmajor ltac:(lia)) as Hcfg.
  unfold Merge. rewrite Hcfg. cbn [Version Services Volumes Networks default].
  destruct (normalizeExtends (Services config)) as [normalized|]; [|done].
  destruct (interpolateAll _ _ _ _ _ _) as [[[interpolated vols] nets]|]; [|done].
  destruct (match ParseOptions.Preprocess _ with
            | Some hook => hook interpolated
            | None => Ok interpolated
            end) as [preprocessed|]; [|done].
  by rewrite Hmajor.
Qed.

(** C3 (as amended): for a manifest that decodes and whose version
    classifies as major version 3, [Merge] returns no result; once the
    stages before the version switch have completed it logs the note on
    version 3 and the process exits with status 1, so that nothing, and no
    error either, is returned to the caller. *)
Theorem Merge_version3_exits
    (existingServices : ServiceConfigs) (environmentLookup : EnvironmentLookup)
    (resourceLookup : option ResourceLookup) (file bytes : string)
    (options : option ParseOptions.t) (config : Config)
    (Hyaml : yamlUnmarshalConfig bytes = Ok config)
    (Hmajor : getComposeMajorVersion (Version config) = (3, None)) :
  (forall version services volumes networks,
     Merge' existingServices environmentLookup resourceLookup file bytes options
     <> Returned version services volumes networks None)
  /\ (reachesSwitch Interpolate environmentLookup config
        (default defaultParseOptions options) ->
      Merge' existingServices environmentLookup resourceLookup file bytes options
      = Exited 1 v3Note).
Proof.
  rewrite (Merge_version3_cases _ _ _ _ _ _ _ Hyaml Hmajor).
  split.
  - intros version services volumes networks.
    repeat case_match; discriminate.
  - intros (normalized & interpolated & vols & nets & preprocessed
            & Hnorm & Hint & Hpre).
    by rewrite Hnorm, Hint, Hpre.
Qed.


(** C10: [Merge] with nil options is [Merge] with the options Interpolate
    and Validate set and no hook; and with nil options the interpolation
    runs, an error of it is the error of [Merge]. *)
Theorem Merge_nil_options
    (existingServices : ServiceConfigs) (environmentLookup : EnvironmentLookup)
    (resourceLookup : option ResourceLookup) (file bytes : string) :
  Merge' existingServices environmentLookup resourceLookup file bytes None
  = Merge' existingServices environmentLookup resourceLookup file bytes
      (Some (ParseOptions.mk true true None None))
  /\ match CreateConfig' bytes with
     | Ok config =>
         match normalizeExtends (Services config) with
         | Ok normalized =>
             match InterpolateRawServiceMap Interpolate normalized
                     environmentLookup with
             | Err e =>
                 Merge' existingServices environmentLookup resourceLookup
                   file bytes None = failed e
             | Ok _ => True
             end
         | Err _ => True
         end
     | Err _ => True
     end.
Proof.
  split; [reflexivity|].
  unfold Merge. destruct (CreateConfig' bytes) as [config|]; [|done].
  destruct (normalizeExtends (Services config)) as [normalized|]; [|done].
  simpl. unfold interpolateAll.
  by destruct (InterpolateRawServiceMap Interpolate normalized environmentLookup).
Qed.

End MergeFacts.

(** *** Merge on sample manifests *)

Example Merge_v2_sample :
  SampleEngine.run tt tt None "compose.yml" SampleEngine.v2Manifest None
  = Returned "2" (Some {[ "web" := mkServiceConfig "no" {[ "image" := VStr "busybox" ]} ]})
      (Some ∅) (Some ∅) None.
Proof. vm_compute. reflexivity. Qed.

Lemma Merge_error_no_partial_result_witness :
  exists version services volumes networks err,
    SampleEngine.run tt tt None "compose.yml" SampleEngine.brokenManifest None
    = Returned version services volumes networks (Some err)
    /\ version = "" /\ services = None /\ volumes = None /\ networks = None.
Proof.
  assert (Hret : SampleEngine.run tt tt None "compose.yml"
                   SampleEngine.brokenManifest None
                 = Returned "" None None None
                     (Some (Foreign "yaml: unmarshal errors")))
    by (vm_compute; reflexivity).
  exists "", None, None, None, (Foreign "yaml: unmarshal errors").
  split; [exact Hret|].
  exact (Merge_error_no_partial_result _ _ _ _ _ _ _ _
           tt tt None "compose.yml" SampleEngine.brokenManifest None
           _ _ _ _ _ Hret).
Defined.

Lemma Merge_version3_exits_witness :
  SampleEngine.run tt tt None "compose.yml" SampleEngine.v3Manifest None
  = Exited 1 "Note: Compose file version 3 is not yet implemented".
Proof.
  apply (Merge_version3_exits _ _ _ _ _ _ _ _
           tt tt None "compose.yml" SampleEngine.v3Manifest None
           (mkConfig "3" {[ "web" := {[ "image" := VStr "busybox" ]} ]} None None)
           eq_refl eq_refl).
  exists {[ "web" := {[ "image" := VStr "busybox" ]} ]},
         {[ "web" := {[ "image" := VStr "busybox" ]} ]}, ∅, ∅,
         {[ "web" := {[ "image" := VStr "busybox" ]} ]}.
  repeat split; vm_compute; reflexivity.
Defined.

(** C3, as it was stated, fails: on the manifest of version 3 [Merge] does
    not return an error to its caller, the process exits. *)
Lemma Merge_version3_returns_no_error :
  getComposeMajorVersion "3" = (3, None)
  /\ SampleEngine.run tt tt None "compose.yml" SampleEngine.v3Manifest None
     = Exited 1 v3Note
  /\ ~ exists version services volumes networks err,
         SampleEngine.run tt tt None "compose.yml" SampleEngine.v3Manifest None
         = Returned version services volumes networks (Some err).
Proof.
  assert (H : SampleEngine.run tt tt None "compose.yml"
                SampleEngine.v3Manifest None = Exited 1 v3Note)
    by (vm_compute; reflexivity).
  split; [reflexivity|split; [exact H|]].
  intros (version & services & volumes & networks & err & Hret).
  rewrite H in Hret. discriminate.
Qed.



(** With nil options the malformed reference is met and reported; with
    the interpolation off the same manifest merges. *)
Example Merge_nil_options_interpolates :
  SampleEngine.run tt tt None "compose.yml"
    SampleEngine.badReferenceManifest None
  = Returned "" None None None (Some (Foreign "Invalid interpolation format"))
  /\ SampleEngine.run tt tt None "compose.yml"
       SampleEngine.badReferenceManifest
       (Some (ParseOptions.mk false true None None))
     = Returned "2" (Some {[ "web" := mkServiceConfig "" {[ "image" := VStr "${" ]} ]})
         (Some ∅) (Some ∅) None.
Proof. split; vm_compute; reflexivity. Qed.


(* ===================================================================== *)
(** * Further properties *)
(* ===================================================================== *)

(** ** getComposeMajorVersion *)

Lemma countByte_app s t c :
  countByte (s +:+ t) c = (countByte s c + countByte t c)%nat.
Proof.
  induction s as [|b r IH]; simpl; [done|].
  destruct (byte_eqb b c); simpl; by rewrite IH.
Qed.

Lemma beforeByte_app_sep s t c :
  countByte s c = O -> beforeByte (s +:+ String c t) c = s.
Proof.
  induction s as [|b r IH]; simpl.
  - intros _. unfold byte_eqb. by rewrite Ascii.eqb_refl.
  - destruct (byte_eqb b c); [discriminate|]. intros H. by rewrite IH.
Qed.

(** The classification in full: a version string has a major version
    exactly when it is empty (major version 1) or has at most one dot and
    an integer token before it; every other string is an error. *)
Theorem version_major_of (version : string) :
  match majorOf version with
  | Some major => getComposeMajorVersion version = (major, None)
  | None => exists n e, getComposeMajorVersion version = (n, Some e)
  end.
Proof.
  rewrite getComposeMajorVersion_shapes. unfold majorOf.
  destruct (shapeOf version) as [| |first|].
  - reflexivity.
  - pose proof (Atoi_spec version) as H.
    destruct (intToken version); [done|]. destruct H as (n & k & ->). eauto.
  - pose proof (Atoi_spec first) as H.
    destruct (intToken first); [done|]. destruct H as (n & k & ->). eauto.
  - eauto.
Qed.

(** The token after the dot never counts: a version "first.second" is
    classified as the version "first". *)
Theorem version_minor_ignored (first second : string)
    (Hfirst : first <> "")
    (Hdots : countByte first "." = O)
    (Hsecond : countByte second "." = O) :
  getComposeMajorVersion (first +:+ "." +:+ second)
  = getComposeMajorVersion first.
Proof.
  rewrite !getComposeMajorVersion_shapes. unfold shapeOf.
  assert (Hne : String.eqb (first +:+ "." +:+ second) "" = false).
  { destruct first; [done|reflexivity]. }
  rewrite Hne, countByte_app, Hdots.
  change ("." +:+ second) with (String "." second).
  rewrite beforeByte_app_sep by done.
  cbn [countByte Nat.add]. unfold byte_eqb at 1. rewrite Ascii.eqb_refl.
  rewrite Hsecond.
  by destruct (String.eqb_spec first "").
Qed.

Lemma version_minor_ignored_witness :
  getComposeMajorVersion "2.1" = getComposeMajorVersion "2".
Proof.
  apply (version_minor_ignored "2" "1"); [discriminate|reflexivity|reflexivity].
Defined.

(** ** The extends normalizer, the whole loop *)

(** The loop fails exactly on a manifest with a null "extends", and then
    with the nil dereference. *)
Lemma normalizeExtends_Err_iff (raw : RawServiceMap) (msg : string) :
  normalizeExtends raw = Err msg <-> msg = nilKindPanic /\ hasNullExtends raw.
Proof.
  assert (Hfwd : forall m, normalizeExtends raw = Err m ->
                   m = nilKindPanic /\ hasNullExtends raw).
  { intros m Hr. apply rangeM_Err in Hr as (name & data & Hname & Hs).
    apply rangeM_Err in Hs as (k & v & Hk & Hf).
    destruct (decide (k = "extends")) as [->|Hne].
    - rewrite normalizeExtendsField_extends in Hf.
      destruct v; try discriminate. injection Hf as <-.
      split; [done|]. by exists name, data.
    - rewrite normalizeExtendsField_other in Hf by done. discriminate. }
  split; [apply Hfwd|].
  intros [-> (name & data & Hname & Hnull)].
  destruct (normalizeExtends raw) as [raw'|m] eqn:Hr.
  - destruct (rangeM_lookup _ _ _ _ _ Hr Hname) as (data' & Hs & _).
    rewrite (normalizeExtendsService_extends _ _ Hnull) in Hs. discriminate.
  - by destruct (Hfwd m eq_refl) as [-> _].
Qed.

(** ** CreateConfig, InterpolateRawServiceMap and Merge *)

Section EngineFacts.

Context {EnvironmentLookup ServiceConfigs ServiceConfigV1
         VolumeConfig NetworkConfig : Type}.
Variable yamlUnmarshalConfig : string -> result error Config.
Variable yamlUnmarshalServices : string -> result error RawServiceMap.
Variable Interpolate :
  string -> Value -> EnvironmentLookup -> result error Value.
Variable MergeServicesV1 :
  ServiceConfigs -> EnvironmentLookup -> option ResourceLookup -> string ->
  RawServiceMap -> ParseOptions.t ->
  result error (option (gmap string ServiceConfigV1)).
Variable MergeServicesV2 :
  ServiceConfigs -> EnvironmentLookup -> option ResourceLookup -> string ->
  RawServiceMap -> ParseOptions.t -> result error ServiceMap.
Variable ConvertServices :
  option (gmap string ServiceConfigV1) -> result error ServiceMap.
Variable convertVolumes :
  gmap string Value -> result error (option (gmap string VolumeConfig)).
Variable convertNetworks :
  gmap string Value -> result error (option (gmap string NetworkConfig)).

Abbreviation CreateConfig'' :=
  (CreateConfig yamlUnmarshalConfig yamlUnmarshalServices).
Abbreviation Merge'' :=
  (Merge yamlUnmarshalConfig yamlUnmarshalServices Interpolate
     MergeServicesV1 MergeServicesV2 ConvertServices
     convertVolumes convertNetworks).

(** A configuration that [CreateConfig] returns has the version of the
    document, a version that classifies without error, and its volumes and
    networks are allocated maps: those of the document, or empty ones. *)
Theorem CreateConfig_sections_allocated (bytes : string) (config : Config)
    (Hok : CreateConfig'' bytes = Ok config) :
  exists decoded major,
    yamlUnmarshalConfig bytes = Ok decoded
    /\ Version config = Version decoded
    /\ getComposeMajorVersion (Version config) = (major, None)
    /\ Volumes config = Some (default ∅ (Volumes decoded))
    /\ Networks config = Some (default ∅ (Networks decoded)).
Proof.
  unfold CreateConfig in Hok.
  destruct (yamlUnmarshalConfig bytes) as [decoded|]; [|discriminate].
  destruct (getComposeMajorVersion (Version decoded)) as [major [e|]] eqn:Hv;
    [discriminate|].
  exists decoded, major. split; [done|].
  destruct (major <? 2).
  - destruct (yamlUnmarshalServices bytes); [|discriminate].
    injection Hok as <-. by simpl.
  - injection Hok as <-. by simpl.
Qed.

(** The services of a configuration that [CreateConfig] returns: below
    major version 2 they are the second decoding of the bytes, as a flat
    map of services, whatever the first decoding found; from major version
    2 on they are the services section of the first decoding. *)
Theorem CreateConfig_services_by_version
    (bytes : string) (config decoded : Config) (major : Z)
    (Hdec : yamlUnmarshalConfig bytes = Ok decoded)
    (Hmajor : getComposeMajorVersion (Version decoded) = (major, None))
    (Hok : CreateConfig'' bytes = Ok config) :
  if major <? 2 then yamlUnmarshalServices bytes = Ok (Services config)
  else Services config = Services decoded.
Proof.
  unfold CreateConfig in Hok. rewrite Hdec, Hmajor in Hok.
  destruct (major <? 2).
  - destruct (yamlUnmarshalServices bytes) as [raw|]; [|discriminate].
    by injection Hok as <-.
  - by injection Hok as <-.
Qed.

(** After a successful interpolation the manifest has the same services
    with the same fields, and every value is what [Interpolate] made of the
    value that was there, called with the name of the field. *)
Theorem InterpolateRawServiceMap_fields
    (raw out : RawServiceMap) (environmentLookup : EnvironmentLookup)
    (name : string)
    (Hok : InterpolateRawServiceMap Interpolate raw environmentLookup = Ok out) :
  match raw !! name with
  | Some data =>
      exists data', out !! name = Some data'
        /\ forall k,
             match data !! k with
             | Some v => exists v', Interpolate k v environmentLookup = Ok v'
                                    /\ data' !! k = Some v'
             | None => data' !! k = None
             end
  | None => out !! name = None
  end.
Proof.
  unfold InterpolateRawServiceMap in Hok.
  destruct (raw !! name) as [data|] eqn:Hname.
  - destruct (rangeM_lookup _ _ _ _ _ Hok Hname) as (data' & Hdata & Hout).
    exists data'. split; [done|]. intros k.
    destruct (data !! k) as [v|] eqn:Hk.
    + apply (rangeM_lookup _ _ _ _ _ Hdata Hk).
    + apply (rangeM_lookup_None _ _ _ _ Hdata Hk).
  - apply (rangeM_lookup_None _ _ _ _ Hok Hname).
Qed.

(** The interpolation of a manifest fails exactly when some field of some
    service fails, and its error is the error of such a field. *)
Theorem InterpolateRawServiceMap_fails_iff
    (raw : RawServiceMap) (environmentLookup : EnvironmentLookup) :
  (forall e, InterpolateRawServiceMap Interpolate raw environmentLookup = Err e ->
             fieldFails Interpolate raw environmentLookup e)
  /\ (forall e, fieldFails Interpolate raw environmentLookup e ->
        exists e', InterpolateRawServiceMap Interpolate raw environmentLookup
                   = Err e').
Proof.
  split.
  - intros e Hr. apply rangeM_Err in Hr as (name & data & Hname & Hs).
    apply rangeM_Err in Hs as (k & v & Hk & Hf). by exists name, data, k, v.
  - intros e (name & data & k & v & Hname & Hk & Hf).
    destruct (InterpolateRawServiceMap Interpolate raw environmentLookup)
      as [out|e'] eqn:Hr; [|by exists e'].
    destruct (rangeM_lookup _ _ _ _ _ Hr Hname) as (data' & Hdata & _).
    destruct (rangeM_lookup _ _ _ _ _ Hdata Hk) as (v' & Hv' & _).
    congruence.
Qed.

(** A manifest whose values [Interpolate] all leaves as they are is
    returned as it is. *)
Theorem InterpolateRawServiceMap_unchanged
    (raw : RawServiceMap) (environmentLookup : EnvironmentLookup)
    (Hid : forall name data k v,
             raw !! name = Some data -> data !! k = Some v ->
             Interpolate k v environmentLookup = Ok v) :
  InterpolateRawServiceMap Interpolate raw environmentLookup = Ok raw.
Proof.
  apply rangeM_id. intros name data Hname.
  apply rangeM_id. intros k v Hk. by apply (Hid name data).
Qed.

End EngineFacts.

Section MergeStages.

Context {EnvironmentLookup ServiceConfigs ServiceConfigV1
         VolumeConfig NetworkConfig : Type}.
Variable yamlUnmarshalConfig : string -> result error Config.
Variable yamlUnmarshalServices : string -> result error RawServiceMap.
Variable Interpolate :
  string -> Value -> EnvironmentLookup -> result error Value.
Variable MergeServicesV1 :
  ServiceConfigs -> EnvironmentLookup -> option ResourceLookup -> string ->
  RawServiceMap -> ParseOptions.t ->
  result error (option (gmap string ServiceConfigV1)).
Variable MergeServicesV2 :
  ServiceConfigs -> EnvironmentLookup -> option ResourceLookup -> string ->
  RawServiceMap -> ParseOptions.t -> result error ServiceMap.
Variable ConvertServices :
  option (gmap string ServiceConfigV1) -> result error ServiceMap.
Variable convertVolumes :
  gmap string Value -> result error (option (gmap string VolumeConfig)).
Variable convertNetworks :
  gmap string Value -> result error (option (gmap string NetworkConfig)).

Abbreviation CreateConfig3 :=
  (CreateConfig yamlUnmarshalConfig yamlUnmarshalServices).
Abbreviation dispatch3 :=
  (dispatch (VolumeConfig := VolumeConfig) (NetworkConfig := NetworkConfig)
     MergeServicesV1 MergeServicesV2 ConvertServices).
Abbreviation Merge3 :=
  (Merge yamlUnmarshalConfig yamlUnmarshalServices Interpolate
     MergeServicesV1 MergeServicesV2 ConvertServices
     convertVolumes convertNetworks).

(** What lies behind a successful return of [Merge], stage by stage. *)
Lemma Merge_success_stages
    (existingServices : ServiceConfigs) (environmentLookup : EnvironmentLookup)
    (resourceLookup : option ResourceLookup) (file bytes : string)
    (options : option ParseOptions.t)
    (version : string) (services : ServiceMap)
    (volumes : option (gmap string VolumeConfig))
    (networks : option (gmap string NetworkConfig)) :
  Merge3 existingServices environmentLookup resourceLookup file bytes options
    = Returned version services volumes networks None ->
  exists config normalized interpolated vols nets preprocessed major adapted,
    CreateConfig3 bytes = Ok config
    /\ version = Version config
    /\ normalizeExtends (Services config) = Ok normalized
    /\ interpolateAll Interpolate
         (ParseOptions.Interpolate (default defaultParseOptions options))
         environmentLookup normalized (default ∅ (Volumes config))
         (default ∅ (Networks config)) = Ok (interpolated, vols, nets)
    /\ match ParseOptions.Preprocess (default defaultParseOptions options) with
       | Some hook => hook interpolated
       | None => Ok interpolated
       end = Ok preprocessed
    /\ getComposeMajorVersion (Version config) = (major, None)
    /\ dispatch3 major existingServices environmentLookup resourceLookup file
         preprocessed (default defaultParseOptions options) = Ok adapted
    /\ match ParseOptions.Postprocess (default defaultParseOptions options) with
       | Some hook => hook (adjustValues adapted)
       | None => Ok (adjustValues adapted)
       end = Ok services
    /\ convertVolumes vols = Ok volumes
    /\ convertNetworks nets = Ok networks.
Proof.
  intros Hret. unfold Merge in Hret.
  destruct (CreateConfig3 bytes) as [config|] eqn:Hcfg; [|discriminate].
  destruct (normalizeExtends (Services config)) as [normalized|] eqn:Hn;
    [|discriminate].
  destruct (interpolateAll _ _ _ _ _ _) as [[[interpolated vols] nets]|] eqn:Hint;
    [|discriminate].
  destruct (match ParseOptions.Preprocess _ with
            | Some hook => hook interpolated
            | None => Ok interpolated
            end) as [preprocessed|] eqn:Hpre; [|discriminate].
  destruct (getComposeMajorVersion (Version config)) as [major [e|]] eqn:Hv;
    [discriminate|].
  destruct (dispatch _ _ _ _ _ _ _ _ _ _) as [adapted|stop] eqn:Hd.
  - destruct (match ParseOptions.Postprocess _ with
              | Some hook => hook (adjustValues adapted)
              | None => Ok (adjustValues adapted)
              end) as [adjusted|] eqn:Hpost; [|discriminate].
    destruct (convertVolumes vols) as [volumes'|] eqn:Hvol; [|discriminate].
    destruct (convertNetworks nets) as [networks'|] eqn:Hnet; [|discriminate].
    injection Hret as <- <- <- <-.
    exists config, normalized, interpolated, vols, nets, preprocessed,
           major, adapted.
    repeat split; first [assumption | reflexivity].
  - apply dispatch_Err in Hd as [[_ ->] | [e' ->]]; discriminate.
Qed.

(** A successful [Merge] returns the version string of the document as it
    was decoded, and this version classifies, with a major version that is
    not 3. *)
Theorem Merge_success_version
    (existingServices : ServiceConfigs) (environmentLookup : EnvironmentLookup)
    (resourceLookup : option ResourceLookup) (file bytes : string)
    (options : option ParseOptions.t)
    (version : string) (services : ServiceMap)
    (volumes : option (gmap string VolumeConfig))
    (networks : option (gmap string NetworkConfig))
    (Hret : Merge3 existingServices environmentLookup resourceLookup file
              bytes options
            = Returned version services volumes networks None) :
  exists decoded major,
    yamlUnmarshalConfig bytes = Ok decoded
    /\ version = Version decoded
    /\ getComposeMajorVersion version = (major, None)
    /\ major <> 3.
Proof.
  apply Merge_success_stages in Hret
    as (config & normalized & interpolated & vols & nets & preprocessed
        & major & adapted & Hcfg & -> & _ & _ & _ & Hv & Hd & _).
  destruct (CreateConfig_sections_allocated _ _ _ _ Hcfg)
    as (decoded & major' & Hdec & Hver & _).
  exists decoded, major. repeat split; try done.
  intros ->. by rewrite dispatch_3 in Hd.
Qed.

(** The process exits only at the switch on a major version of 3, with
    status 1 and the note on version 3. *)
Theorem Merge_exits_only_version3
    (existingServices : ServiceConfigs) (environmentLookup : EnvironmentLookup)
    (resourceLookup : option ResourceLookup) (file bytes : string)
    (options : option ParseOptions.t) (status : Z) (logged : string)
    (Hexit : Merge3 existingServices environmentLookup resourceLookup file
               bytes options = Exited status logged) :
  status = 1 /\ logged = v3Note
  /\ exists config, CreateConfig3 bytes = Ok config
       /\ getComposeMajorVersion (Version config) = (3, None).
Proof.
  unfold Merge in Hexit.
  destruct (CreateConfig3 bytes) as [config|]; [|discriminate].
  destruct (normalizeExtends (Services config)); [|discriminate].
  destruct (interpolateAll _ _ _ _ _ _) as [[[interpolated vols] nets]|];
    [|discriminate].
  destruct (match ParseOptions.Preprocess _ with
            | Some hook => hook interpolated
            | None => Ok interpolated
            end) as [preprocessed|]; [|discriminate].
  destruct (getComposeMajorVersion (Version config)) as [major [e|]] eqn:Hv;
    [discriminate|].
  destruct (dispatch _ _ _ _ _ _ _ _ _ _) as [adapted|stop] eqn:Hd.
  - repeat case_match; discriminate.
  - apply dispatch_Err in Hd as [[-> ->] | [e' ->]]; [|discriminate].
    injection Hexit as <- <-. repeat split. by exists config.
Qed.

(** [Merge] panics exactly on a document that loads and has a service
    with a null "extends"; the panic is the nil dereference of the test on
    the kind. *)
Theorem Merge_panics_iff
    (existingServices : ServiceConfigs) (environmentLookup : EnvironmentLookup)
    (resourceLookup : option ResourceLookup) (file bytes : string)
    (options : option ParseOptions.t) (msg : string) :
  Merge3 existingServices environmentLookup resourceLookup file bytes options
    = Panicked msg
  <-> msg = nilKindPanic
      /\ exists config, CreateConfig3 bytes = Ok config
           /\ hasNullExtends (Services config).
Proof.
  split.
  - intros Hp. unfold Merge in Hp.
    destruct (CreateConfig3 bytes) as [config|]; [|discriminate].
    destruct (normalizeExtends (Services config)) as [normalized|m] eqn:Hn.
    + exfalso.
      destruct (interpolateAll _ _ _ _ _ _) as [[[interpolated vols] nets]|];
        [|discriminate].
      destruct (match ParseOptions.Preprocess _ with
                | Some hook => hook interpolated
                | None => Ok interpolated
                end) as [preprocessed|]; [|discriminate].
      destruct (getComposeMajorVersion (Version config)) as [major [e|]];
        [discriminate|].
      destruct (dispatch _ _ _ _ _ _ _ _ _ _) as [adapted|stop] eqn:Hd.
      * repeat case_match; discriminate.
      * apply dispatch_Err in Hd as [[_ ->] | [e' ->]]; discriminate.
    + injection Hp as ->. apply normalizeExtends_Err_iff in Hn as [-> Hnull].
      split; [done|]. by exists config.
  - intros [-> (config & Hcfg & Hnull)]. unfold Merge. rewrite Hcfg.
    by rewrite (proj2 (normalizeExtends_Err_iff _ nilKindPanic)).
Qed.

(** With the option Interpolate off, [Merge] does not depend on the
    interpolation at all. *)
Theorem Merge_without_interpolation
    (Interpolate' : string -> Value -> EnvironmentLookup -> result error Value)
    (existingServices : ServiceConfigs) (environmentLookup : EnvironmentLookup)
    (resourceLookup : option ResourceLookup) (file bytes : string)
    (options : ParseOptions.t)
    (Hoff : ParseOptions.Interpolate options = false) :
  Merge3 existingServices environmentLookup resourceLookup file bytes
    (Some options)
  = Merge yamlUnmarshalConfig yamlUnmarshalServices Interpolate'
      MergeServicesV1 MergeServicesV2 ConvertServices
      convertVolumes convertNetworks
      existingServices environmentLookup resourceLookup file bytes
      (Some options).
Proof. unfold Merge, interpolateAll. simpl. by rewrite Hoff. Qed.

(** A document of major version 2 goes through [MergeServicesV2] alone:
    [Merge] does not depend on the adapter of version 1 and its
    conversion. *)
Theorem Merge_version2_adapter
    (MergeServicesV1' :
       ServiceConfigs -> EnvironmentLookup -> option ResourceLookup -> string ->
       RawServiceMap -> ParseOptions.t ->
       result error (option (gmap string ServiceConfigV1)))
    (ConvertServices' :
       option (gmap string ServiceConfigV1) -> result error ServiceMap)
    (existingServices : ServiceConfigs) (environmentLookup : EnvironmentLookup)
    (resourceLookup : option ResourceLookup) (file bytes : string)
    (options : option ParseOptions.t) (config : Config)
    (Hcfg : CreateConfig3 bytes = Ok config)
    (Hmajor : getComposeMajorVersion (Version config) = (2, None)) :
  Merge3 existingServices environmentLookup resourceLookup file bytes options
  = Merge yamlUnmarshalConfig yamlUnmarshalServices Interpolate
      MergeServicesV1' MergeServicesV2 ConvertServices'
      convertVolumes convertNetworks
      existingServices environmentLookup resourceLookup file bytes options.
Proof. unfold Merge. rewrite Hcfg, Hmajor. reflexivity. Qed.

(** A document whose major version is neither 2 nor 3 (1, 0, 4, a negative
    number) goes through [MergeServicesV1] and [ConvertServices]: [Merge]
    does not depend on the adapter of version 2. *)
Theorem Merge_other_versions_as_v1
    (MergeServicesV2' :
       ServiceConfigs -> EnvironmentLookup -> option ResourceLookup -> string ->
       RawServiceMap -> ParseOptions.t -> result error ServiceMap)
    (existingServices : ServiceConfigs) (environmentLookup : EnvironmentLookup)
    (resourceLookup : option ResourceLookup) (file bytes : string)
    (options : option ParseOptions.t) (config : Config) (major : Z)
    (Hcfg : CreateConfig3 bytes = Ok config)
    (Hmajor : getComposeMajorVersion (Version config) = (major, None))
    (Hnot2 : major <> 2) (Hnot3 : major <> 3) :
  Merge3 existingServices environmentLookup resourceLookup file bytes options
  = Merge yamlUnmarshalConfig yamlUnmarshalServices Interpolate
      MergeServicesV1 MergeServicesV2' ConvertServices
      convertVolumes convertNetworks
      existingServices environmentLookup resourceLookup file bytes options.
Proof.
  unfold Merge. rewrite Hcfg, Hmajor. unfold dispatch.
  destruct (Z.eqb_spec major 3); [done|].
  destruct (Z.eqb_spec major 2); [done|]. reflexivity.
Qed.

(** The Postprocess hook is called on the services after the adjustment
    pass: what a successful [Merge] returns is the result of the hook on
    services none of which has the restart policy "false". *)
Theorem Merge_postprocess_input
    (existingServices : ServiceConfigs) (environmentLookup : EnvironmentLookup)
    (resourceLookup : option ResourceLookup) (file bytes : string)
    (options : ParseOptions.t)
    (hook : ServiceMap -> result error ServiceMap)
    (version : string) (services : ServiceMap)
    (volumes : option (gmap string VolumeConfig))
    (networks : option (gmap string NetworkConfig))
    (Hhook : ParseOptions.Postprocess options = Some hook)
    (Hret : Merge3 existingServices environmentLookup resourceLookup file
              bytes (Some options)
            = Returned version services volumes networks None) :
  exists adjusted : ServiceMap,
    hook adjusted = Ok services
    /\ forall configs name v,
         adjusted = Some configs -> configs !! name = Some v ->
         Restart v <> "false".
Proof.
  apply Merge_success_stages in Hret
    as (config & normalized & interpolated & vols & nets & preprocessed
        & major & adapted & _ & _ & _ & _ & _ & _ & _ & Hpost & _).
  simpl in Hpost. rewrite Hhook in Hpost.
  exists (adjustValues adapted). split; [done|].
  intros configs name v Hadj Hname.
  by apply (adjustValues_no_false adapted configs name v).
Qed.

End MergeStages.

(** ** The normalizer before the interpolation *)

(** Two bodies that agree on the entries of a map range over it alike. *)
Lemma rangeM_ext {E A B : Type} (f g : string -> A -> result E B)
    (m : gmap string A) :
  (forall k v, m !! k = Some v -> f k v = g k v) -> rangeM f m = rangeM g m.
Proof.
  intros Hfg. unfold rangeM. rewrite !map_fold_foldr.
  assert (Hall : forall k v, (k, v) ∈ map_to_list m -> f k v = g k v).
  { intros k v Hin. apply Hfg. by apply elem_of_map_to_list. }
  induction (map_to_list m) as [|[k v] rest IH]; simpl; [done|].
  rewrite IH.
  - rewrite (Hall k v); [reflexivity|]. apply elem_of_cons. by left.
  - intros k' v' Hin. apply Hall. apply elem_of_cons. by right.
Qed.

(** After the normalizer no service has a bare string under "extends". *)
Lemma normalizeExtends_no_shorthand (raw normalized : RawServiceMap)
    (name : string) (data : RawService) (s : string) :
  normalizeExtends raw = Ok normalized ->
  normalized !! name = Some data ->
  data !! "extends" <> Some (VStr s).
Proof.
  intros Hn Hname Hext.
  destruct (raw !! name) as [data0|] eqn:Hraw.
  - destruct (rangeM_lookup _ _ _ _ _ Hn Hraw) as (data' & Hs & Hout).
    rewrite Hname in Hout. injection Hout as <-.
    destruct (data0 !! "extends") as [v|] eqn:H0.
    + destruct (rangeM_lookup _ _ _ _ _ Hs H0) as (v' & Hf & Hv').
      rewrite Hext in Hv'. injection Hv' as <-.
      rewrite normalizeExtendsField_extends in Hf. by destruct v.
    + rewrite (rangeM_lookup_None _ _ _ _ Hs H0) in Hext. discriminate.
  - rewrite (rangeM_lookup_None _ _ _ _ Hn Hraw) in Hname. discriminate.
Qed.

(** The interpolation runs on the normalized manifest: it is never asked
    about a bare string under "extends", so two interpolations that differ
    only there interpolate every normalized manifest alike. *)
Theorem extends_interpolated_as_mapping {EnvironmentLookup : Type}
    (Interpolate1 Interpolate2 :
       string -> Value -> EnvironmentLookup -> result error Value)
    (raw normalized : RawServiceMap) (environmentLookup : EnvironmentLookup)
    (Hnorm : normalizeExtends raw = Ok normalized)
    (Hagree : forall k v,
                (forall s, (k, v) <> ("extends", VStr s)) ->
                Interpolate1 k v environmentLookup
                = Interpolate2 k v environmentLookup) :
  InterpolateRawServiceMap Interpolate1 normalized environmentLookup
  = InterpolateRawServiceMap Interpolate2 normalized environmentLookup.
Proof.
  unfold InterpolateRawServiceMap.
  apply rangeM_ext. intros name data Hname.
  apply rangeM_ext. intros k v Hk.
  apply Hagree. intros s [= -> ->].
  by apply (normalizeExtends_no_shorthand raw normalized name data s).
Qed.

(** ** adjustValues, on its own *)

(** A second adjustment pass changes nothing. *)
Theorem adjustValues_idempotent (configs : ServiceMap) :
  adjustValues (adjustValues configs) = adjustValues configs.
Proof.
  destruct configs as [m|]; simpl; [|done]. f_equal.
  apply map_eq. intros name. rewrite !lookup_fmap.
  destruct (m !! name) as [v|]; simpl; [|done]. f_equal.
  unfold adjustRestart at 1.
  destruct (String.eqb_spec (Restart (adjustRestart v)) "false") as [Hf|]; [|done].
  by destruct (adjustRestart_not_false v).
Qed.

(** The pass keeps the services that are there and adds none; of a
    service it changes the restart policy alone, and only from "false" to
    "no"; a nil map stays nil. *)
Theorem adjustValues_frame (configs : ServiceMap) (name : string) :
  match configs with
  | None => adjustValues configs = None
  | Some m =>
      exists m', adjustValues configs = Some m'
        /\ match m !! name with
           | None => m' !! name = None
           | Some v =>
               exists v', m' !! name = Some v'
                 /\ Others v' = Others v
                 /\ (if String.eqb (Restart v) "false"
                     then Restart v' = "no" else Restart v' = Restart v)
           end
  end.
Proof.
  destruct configs as [m|]; simpl; [|done].
  eexists. split; [reflexivity|]. rewrite lookup_fmap.
  destruct (m !! name) as [v|]; simpl; [|done].
  eexists. split; [reflexivity|]. unfold adjustRestart.
  by destruct (String.eqb (Restart v) "false").
Qed.

(** ** mergeConfig, for every merge of two values *)

Section MergeConfigAlgebra.

Variable mergeValues : Value -> Value -> Value.

(** The merged service has the fields of the base and of the incoming
    service and no others, and a field that the incoming service lacks
    keeps the value of the base. *)
Theorem mergeConfig_fields (baseService serviceData : RawService) :
  dom (mergeConfig mergeValues baseService serviceData)
    = dom baseService ∪ dom serviceData
  /\ forall k, serviceData !! k = None ->
       mergeConfig mergeValues baseService serviceData !! k = baseService !! k.
Proof.
  split.
  - apply set_eq. intros k. rewrite elem_of_union, !elem_of_dom.
    rewrite mergeConfig_lookup, !is_Some_alt.
    destruct (serviceData !! k) as [v|], (baseService !! k) as [e|]; tauto.
  - intros k Hk. by rewrite mergeConfig_lookup, Hk.
Qed.

(** Merging an empty service into a base leaves the base, and merging a
    service into an empty base gives that service. *)
Theorem mergeConfig_empty (service : RawService) :
  mergeConfig mergeValues service ∅ = service
  /\ mergeConfig mergeValues ∅ service = service.
Proof.
  split; apply map_eq; intros k; rewrite mergeConfig_lookup.
  - by rewrite lookup_empty.
  - rewrite lookup_empty. by destruct (service !! k).
Qed.


End MergeConfigAlgebra.

(** ** readEnvFile, further *)

(** An entry claims the key that it has itself. *)
Lemma foundPrefix_elem (vars : list string) (entry key : string) :
  entry ∈ vars -> HasPrefix entry key = true -> foundPrefix vars key = true.
Proof.
  induction vars as [|v rest IH]; intros Hin Hp; [by apply elem_of_nil in Hin|].
  simpl. apply elem_of_cons in Hin as [<-|Hin]; [by rewrite Hp|].
  destruct (HasPrefix v key); [done|]. by apply IH.
Qed.

(** A list in which no element has the image of an element before it has
    no image twice. *)
Lemma NoDup_fmap_fresh {A B : Type} (f : A -> B) (l : list A) :
  (forall a x b, l = a ++ x :: b -> f x ∉ f <$> a) -> NoDup (f <$> l).
Proof.
  induction l as [|x l IH] using rev_ind; intros Hfresh; [constructor|].
  rewrite fmap_app. apply NoDup_app. split; [|split].
  - apply IH. intros a y b ->. apply (Hfresh a y (b ++ [x])).
    by rewrite <- app_assoc.
  - intros y Hy Hin. simpl in Hin. apply list_elem_of_singleton in Hin as ->.
    by apply (Hfresh l x []).
  - simpl. apply NoDup_singleton.
Qed.

Section EnvFileMore.

Variable convertStringorslice : Value -> result error (list string).
Variable convertMaporEqualSlice : Value -> result error (list string).
Variable TrimSpace : string -> string.

Abbreviation readEnvFile' :=
  (readEnvFile convertStringorslice convertMaporEqualSlice TrimSpace).

(** With env files that can all be read, the environment written back is
    the run of claims over their lines. *)
Lemma readEnvFile_fold
    (resourceLookup : ResourceLookup) (inFile : string)
    (serviceData : RawService)
    (envFileValue : Value) (envFiles explicit : list string) :
  serviceData !! "env_file" = Some envFileValue ->
  convertStringorslice envFileValue = Ok envFiles ->
  envFiles <> [] ->
  match serviceData !! "environment" with
  | Some environment => convertMaporEqualSlice environment
  | None => Ok []
  end = Ok explicit ->
  (forall file, file ∈ envFiles -> readable resourceLookup inFile file) ->
  readEnvFile' (Some resourceLookup) inFile serviceData
  = Ok (<["environment" :=
            VStrings (fold_left claim
                        (candidates TrimSpace resourceLookup inFile envFiles)
                        explicit)]> serviceData).
Proof.
  intros Hfield Hconv Hne Henv Hread.
  unfold readEnvFile. rewrite Hfield, Hconv.
  destruct envFiles as [|f rest] eqn:Hfiles; [done|]. rewrite <- Hfiles in *.
  replace (length envFiles =? 0)%nat with false by (by rewrite Hfiles).
  rewrite Henv, envFilesLoop_ok; [|lia|].
  - by rewrite firstn_all.
  - intros file Hin. apply Hread. by rewrite firstn_all in Hin.
Qed.

(** The loop stops at the first env file, counted from the end of the
    list, that cannot be read. *)
Lemma envFilesLoop_stops (resourceLookup : ResourceLookup) (inFile : string)
    (pre post : list string) (file : string) (e : error) :
  Forall (readable resourceLookup inFile) post ->
  unreadableWith resourceLookup inFile file e ->
  forall n vars,
    (length pre < n)%nat -> (n <= length (pre ++ file :: post))%nat ->
    envFilesLoop TrimSpace resourceLookup inFile (pre ++ file :: post) n vars
    = Err e.
Proof.
  intros Hpost Hbad. induction n as [|i IH]; intros vars Hlo Hhi; [lia|].
  simpl. rewrite nth_lookup.
  destruct (decide (i = length pre)) as [->|Hne].
  - rewrite list_lookup_middle by done. simpl.
    destruct Hbad as [-> | (content & path & -> & Hscan)]; [done|].
    by rewrite (scanFile_failed _ _ _ _ Hscan).
  - rewrite lookup_app_r by lia.
    destruct (i - length pre)%nat as [|j] eqn:Hj; [lia|]. simpl.
    assert (Hlen : length (pre ++ file :: post)
                   = (length pre + S (length post))%nat)
      by (by rewrite length_app).
    destruct (lookup_lt_is_Some_2 post j) as [f Hf]; [lia|].
    rewrite Hf. simpl.
    destruct (Forall_lookup_1 _ _ _ _ Hpost Hf) as (content & path & -> & Hscan).
    rewrite (scanFile_ok _ _ _ Hscan). apply IH; lia.
Qed.

(** On success only the field "environment" differs from the service
    that came in: either nothing was written, or "environment" holds a list
    of entries. *)
Theorem readEnvFile_frame
    (resourceLookup : option ResourceLookup) (inFile : string)
    (serviceData out : RawService)
    (Hok : readEnvFile' resourceLookup inFile serviceData = Ok out) :
  (forall k, k <> "environment" -> out !! k = serviceData !! k)
  /\ (out = serviceData
      \/ exists vars, out !! "environment" = Some (VStrings vars)).
Proof.
  unfold readEnvFile in Hok.
  repeat match type of Hok with
  | context [match ?x with _ => _ end] => destruct x eqn:?
  end; try discriminate; injection Hok as <-;
  try (split; [done|by left]).
  split.
  - intros k Hk. by rewrite lookup_insert_ne.
  - right. eexists. apply lookup_insert_eq.
Qed.

(** The env files are read from the last one back to the first, and the
    first one met that cannot be read, by its lookup or by the scanner,
    decides: its error is returned, whatever the files listed before it
    hold. *)
Theorem readEnvFile_stops_at_unreadable
    (resourceLookup : ResourceLookup) (inFile : string)
    (serviceData : RawService) (envFileValue : Value)
    (pre post explicit : list string) (file : string) (e : error)
    (Hfield : serviceData !! "env_file" = Some envFileValue)
    (Hconv : convertStringorslice envFileValue = Ok (pre ++ file :: post))
    (Henv : match serviceData !! "environment" with
            | Some environment => convertMaporEqualSlice environment
            | None => Ok []
            end = Ok explicit)
    (Hpost : Forall (readable resourceLookup inFile) post)
    (Hbad : unreadableWith resourceLookup inFile file e) :
  readEnvFile' (Some resourceLookup) inFile serviceData = Err e.
Proof.
  unfold readEnvFile. rewrite Hfield, Hconv.
  replace (length (pre ++ file :: post) =? 0)%nat with false
    by (by destruct pre).
  rewrite Henv.
  rewrite (envFilesLoop_stops _ _ _ _ _ _ Hpost Hbad); [done| |done].
  rewrite length_app. simpl. lia.
Qed.

(** Env files without a line that counts (blank lines and comments only)
    add nothing: the explicit entries are written back, and a service that
    had no "environment" gets an empty one. *)
Theorem readEnvFile_no_useful_lines
    (resourceLookup : ResourceLookup) (inFile : string)
    (serviceData : RawService)
    (envFileValue : Value) (envFiles explicit : list string)
    (Hfield : serviceData !! "env_file" = Some envFileValue)
    (Hconv : convertStringorslice envFileValue = Ok envFiles)
    (Hne : envFiles <> [])
    (Henv : match serviceData !! "environment" with
            | Some environment => convertMaporEqualSlice environment
            | None => Ok []
            end = Ok explicit)
    (Hread : forall file, file ∈ envFiles ->
               readable resourceLookup inFile file)
    (Hblank : forall file, file ∈ envFiles ->
                fileLines TrimSpace resourceLookup inFile file = []) :
  readEnvFile' (Some resourceLookup) inFile serviceData
  = Ok (<["environment" := VStrings explicit]> serviceData).
Proof.
  rewrite (readEnvFile_fold _ _ _ _ _ _ Hfield Hconv Hne Henv Hread).
  assert (Hnone : candidates TrimSpace resourceLookup inFile envFiles = []).
  { unfold candidates.
    assert (Hrev : forall file, file ∈ rev envFiles ->
                     fileLines TrimSpace resourceLookup inFile file = []).
    { intros file Hin. apply Hblank.
      apply list_elem_of_In. apply in_rev. by apply list_elem_of_In. }
    induction (rev envFiles) as [|f rest IH]; simpl; [done|].
    rewrite Hrev by (apply elem_of_cons; by left).
    apply IH. intros file Hin. apply Hrev. apply elem_of_cons. by right. }
  by rewrite Hnone.
Qed.

(** No key is added twice: the lines that [readEnvFile] adds to the
    explicit entries have pairwise different keys, even if the env files
    repeat a line or a file is listed more than once. *)
Theorem readEnvFile_distinct_keys
    (resourceLookup : ResourceLookup) (inFile : string)
    (serviceData : RawService)
    (envFileValue : Value) (envFiles explicit : list string)
    (Hfield : serviceData !! "env_file" = Some envFileValue)
    (Hconv : convertStringorslice envFileValue = Ok envFiles)
    (Hne : envFiles <> [])
    (Henv : match serviceData !! "environment" with
            | Some environment => convertMaporEqualSlice environment
            | None => Ok []
            end = Ok explicit)
    (Hread : forall file, file ∈ envFiles ->
               readable resourceLookup inFile file) :
  exists added,
    readEnvFile' (Some resourceLookup) inFile serviceData
    = Ok (<["environment" := VStrings (explicit ++ added)]> serviceData)
    /\ NoDup (keyOf <$> added).
Proof.
  destruct (claims_extend (candidates TrimSpace resourceLookup inFile envFiles)
              explicit) as (added & Heq & _ & Hfree & _).
  exists added. split.
  - rewrite (readEnvFile_fold _ _ _ _ _ _ Hfield Hconv Hne Henv Hread).
    by rewrite Heq.
  - apply NoDup_fmap_fresh. intros a line b Hsplit Hin.
    apply list_elem_of_fmap in Hin as (earlier & Hkey & Hearlier).
    specialize (Hfree a line b Hsplit).
    rewrite (foundPrefix_elem _ earlier) in Hfree; [discriminate| |].
    + apply elem_of_app. by right.
    + rewrite Hkey. apply HasPrefix_SplitAfter0.
Qed.

End EnvFileMore.

(** ** LookupConfig *)

Section LookupConfigFacts.

Context {ProjectContext ClientFactoryT ConfigFileT AuthLookupT : Type}.

Abbreviation DockerContext :=
  (@DockerCtx.t ProjectContext ClientFactoryT ConfigFileT AuthLookupT).

(** [LookupConfig] writes nothing but the configuration file, never
    replaces one that is loaded, and leaves the context as it is when the
    load fails. *)
Theorem LookupConfig_frame
    (Load : string -> option ConfigFileT * option error)
    (c c' : DockerContext) (err : option error)
    (Hcall : DockerCtx.LookupConfig Load c = (c', err)) :
  DockerCtx.Context c' = DockerCtx.Context c
  /\ DockerCtx.ClientFactory c' = DockerCtx.ClientFactory c
  /\ DockerCtx.ConfigDir c' = DockerCtx.ConfigDir c
  /\ DockerCtx.AuthLookup c' = DockerCtx.AuthLookup c
  /\ (is_Some (DockerCtx.ConfigFile c) -> c' = c /\ err = None)
  /\ (is_Some err -> c' = c).
Proof.
  unfold DockerCtx.LookupConfig in Hcall.
  destruct (DockerCtx.ConfigFile c) as [loaded|] eqn:Hfile.
  - injection Hcall as <- <-. repeat split; intros [? [=]].
  - destruct (Load (DockerCtx.ConfigDir c)) as [config [e|]];
      injection Hcall as <- <-; repeat split; try done;
      intros [? [=]].
Qed.

(** The configuration file is loaded once: after a call that has set it,
    a further call does not load, whatever a load would return by then, and
    returns no error and the same context. *)
Theorem LookupConfig_loads_once
    (Load Load' : string -> option ConfigFileT * option error)
    (c c' : DockerContext) (err : option error)
    (Hcall : DockerCtx.LookupConfig Load c = (c', err))
    (Hset : is_Some (DockerCtx.ConfigFile c')) :
  err = None /\ DockerCtx.LookupConfig Load' c' = (c', None).
Proof.
  split.
  - unfold DockerCtx.LookupConfig in Hcall.
    destruct (DockerCtx.ConfigFile c) as [loaded|] eqn:Hfile.
    + by injection Hcall as _ <-.
    + destruct (Load (DockerCtx.ConfigDir c)) as [config [e|]];
        injection Hcall as <- <-; [|done].
      rewrite Hfile in Hset. by destruct Hset.
  - unfold DockerCtx.LookupConfig. by destruct Hset as [loaded ->].
Qed.

End LookupConfigFacts.


(** ** The further properties on the samples *)

Import SampleEngine SampleMore.

Lemma CreateConfig_sections_allocated_witness :
  exists decoded major,
    decoder configs v1Manifest = Ok decoded
    /\ "" = Version decoded
    /\ getComposeMajorVersion "" = (major, None)
    /\ Some (∅ : gmap string Value) = Some (default ∅ (Volumes decoded))
    /\ Some (∅ : gmap string Value) = Some (default ∅ (Networks decoded)).
Proof.
  apply (CreateConfig_sections_allocated (decoder configs)
           (decoder flatServices) v1Manifest
           (mkConfig ""
              {[ "web" := {[ "image" := VStr "busybox";
                             "restart" := VStr "always" ]} ]}
              (Some ∅) (Some ∅))).
  vm_compute. reflexivity.
Defined.

Lemma CreateConfig_services_by_version_witness :
  decoder flatServices v1Manifest
  = Ok {[ "web" := {[ "image" := VStr "busybox"; "restart" := VStr "always" ]} ]}.
Proof.
  assert (Hok : CreateConfig (decoder configs) (decoder flatServices) v1Manifest
                = Ok (mkConfig ""
                        {[ "web" := {[ "image" := VStr "busybox";
                                       "restart" := VStr "always" ]} ]}
                        (Some ∅) (Some ∅)))
    by (vm_compute; reflexivity).
  exact (CreateConfig_services_by_version (decoder configs)
           (decoder flatServices) v1Manifest _ (mkConfig "" ∅ None None) 1
           eq_refl eq_refl Hok).
Defined.

Lemma InterpolateRawServiceMap_fields_witness :
  exists data',
    ({[ "web" := {[ "image" := VStr "busybox" ]} ]} : RawServiceMap) !! "web"
      = Some data'
    /\ forall k,
         match ({[ "image" := VStr "busybox" ]} : RawService) !! k with
         | Some v => exists v', interpolate k v tt = Ok v' /\ data' !! k = Some v'
         | None => data' !! k = None
         end.
Proof.
  assert (Hok : InterpolateRawServiceMap interpolate
                  {[ "web" := {[ "image" := VStr "busybox" ]} ]} tt
                = Ok {[ "web" := {[ "image" := VStr "busybox" ]} ]})
    by (vm_compute; reflexivity).
  exact (InterpolateRawServiceMap_fields interpolate _ _ tt "web" Hok).
Defined.

Lemma InterpolateRawServiceMap_fails_iff_witness :
  exists e',
    InterpolateRawServiceMap interpolate
      {[ "web" := {[ "image" := VStr "${" ]} ]} tt = Err e'.
Proof.
  apply (proj2 (InterpolateRawServiceMap_fails_iff interpolate
                  {[ "web" := {[ "image" := VStr "${" ]} ]} tt)
           (Foreign "Invalid interpolation format")).
  exists "web", {[ "image" := VStr "${" ]}, "image", (VStr "${").
  repeat split; reflexivity.
Defined.

Lemma InterpolateRawServiceMap_unchanged_witness :
  InterpolateRawServiceMap interpolate
    {[ "web" := {[ "image" := VStr "busybox" ]} ]} tt
  = Ok {[ "web" := {[ "image" := VStr "busybox" ]} ]}.
Proof.
  apply InterpolateRawServiceMap_unchanged.
  intros name data k v [<- <-]%lookup_singleton_Some
    [<- <-]%lookup_singleton_Some.
  reflexivity.
Defined.

Lemma Merge_success_version_witness :
  exists decoded major,
    decoder documents v2Manifest = Ok decoded
    /\ "2" = Version decoded
    /\ getComposeMajorVersion "2" = (major, None)
    /\ major <> 3.
Proof.
  apply (Merge_success_version (decoder documents) (decoder []) interpolate
           MergeServices MergeServices Ok
           (fun m => Ok (Some m)) (fun m => Ok (Some m))
           tt tt None "compose.yml" v2Manifest None "2"
           (Some {[ "web" := mkServiceConfig "no"
                                {[ "image" := VStr "busybox" ]} ]})
           (Some ∅) (Some ∅)).
  vm_compute. reflexivity.
Defined.

Lemma Merge_exits_only_version3_witness :
  exists config,
    CreateConfig (decoder documents) (decoder []) v3Manifest = Ok config
    /\ getComposeMajorVersion (Version config) = (3, None).
Proof.
  apply (Merge_exits_only_version3 (decoder documents) (decoder []) interpolate
           MergeServices MergeServices Ok
           (fun m : gmap string Value => Ok (Some m))
           (fun m : gmap string Value => Ok (Some m))
           tt tt None "compose.yml" v3Manifest None 1 v3Note).
  vm_compute. reflexivity.
Defined.

Lemma Merge_panics_iff_witness :
  runWith interpolate MergeServices MergeServices Ok
    tt tt None "compose.yml" nullExtendsManifest None
  = Panicked nilKindPanic.
Proof.
  unfold runWith. apply Merge_panics_iff. split; [reflexivity|].
  exists (mkConfig "2"
            {[ "web" := {[ "extends" := VNil; "image" := VStr "busybox" ]} ]}
            (Some ∅) (Some ∅)).
  split; [vm_compute; reflexivity|].
  exists "web", {[ "extends" := VNil; "image" := VStr "busybox" ]}.
  split; reflexivity.
Defined.

Lemma Merge_without_interpolation_witness :
  runWith interpolate MergeServices MergeServices Ok
    tt tt None "compose.yml" badReferenceManifest
    (Some (ParseOptions.mk false true None None))
  = runWith failingInterpolate MergeServices MergeServices Ok
      tt tt None "compose.yml" badReferenceManifest
      (Some (ParseOptions.mk false true None None)).
Proof.
  unfold runWith. apply Merge_without_interpolation. reflexivity.
Defined.

Lemma Merge_version2_adapter_witness :
  runWith interpolate MergeServices MergeServices Ok
    tt tt None "compose.yml" v2Manifest None
  = runWith interpolate failingAdapter MergeServices failingConversion
      tt tt None "compose.yml" v2Manifest None.
Proof.
  unfold runWith.
  apply (Merge_version2_adapter _ _ _ _ _ _ _ _ _ _ _ _ _ _ _ _
           (mkConfig "2"
              {[ "web" := {[ "image" := VStr "busybox";
                             "restart" := VBool false ]} ]}
              (Some ∅) (Some ∅))).
  - vm_compute. reflexivity.
  - reflexivity.
Defined.

Lemma Merge_other_versions_as_v1_witness :
  runWith interpolate MergeServices MergeServices Ok
    tt tt None "compose.yml" v4Manifest None
  = runWith interpolate MergeServices failingAdapter Ok
      tt tt None "compose.yml" v4Manifest None.
Proof.
  unfold runWith.
  apply (Merge_other_versions_as_v1 _ _ _ _ _ _ _ _ _ _ _ _ _ _ _
           (mkConfig "4" {[ "web" := {[ "image" := VStr "busybox" ]} ]}
              (Some ∅) (Some ∅)) 4).
  - vm_compute. reflexivity.
  - reflexivity.
  - lia.
  - lia.
Defined.

Lemma Merge_postprocess_input_witness :
  exists adjusted : ServiceMap,
    restartAll "always" adjusted
    = Ok (Some {[ "web" := mkServiceConfig "always"
                             {[ "image" := VStr "busybox" ]} ]})
    /\ forall configs name v,
         adjusted = Some configs -> configs !! name = Some v ->
         Restart v <> "false".
Proof.
  apply (Merge_postprocess_input (decoder documents) (decoder []) interpolate
           MergeServices MergeServices Ok
           (fun m : gmap string Value => Ok (Some m))
           (fun m : gmap string Value => Ok (Some m))
           tt tt None "compose.yml" v2Manifest
           (ParseOptions.mk true true None (Some (restartAll "always")))
           (restartAll "always") "2" _ (Some ∅) (Some ∅)).
  - reflexivity.
  - vm_compute. reflexivity.
Defined.

Lemma extends_interpolated_as_mapping_witness :
  InterpolateRawServiceMap interpolate
    {[ "web" := {[ "extends" := VMap {[ "service" := VStr "base" ]};
                   "image" := VStr "busybox" ]} ]} tt
  = InterpolateRawServiceMap noShorthand
      {[ "web" := {[ "extends" := VMap {[ "service" := VStr "base" ]};
                     "image" := VStr "busybox" ]} ]} tt.
Proof.
  apply (extends_interpolated_as_mapping interpolate noShorthand
           {[ "web" := {[ "extends" := VStr "base";
                          "image" := VStr "busybox" ]} ]}).
  - vm_compute. reflexivity.
  - intros k v Hnot. unfold noShorthand.
    destruct v; try reflexivity.
    destruct (String.eqb_spec k "extends") as [->|]; [|reflexivity].
    exfalso. by apply (Hnot s).
Defined.

Lemma mergeConfig_fields_witness :
  dom (mergeConfig merge
         {[ "image" := VStr "a"; "ports" := VSeq [VInt 80] ]}
         {[ "ports" := VSeq [VInt 8080]; "restart" := VStr "always" ]})
  = dom ({[ "image" := VStr "a"; "ports" := VSeq [VInt 80] ]} : RawService)
    ∪ dom ({[ "ports" := VSeq [VInt 8080]; "restart" := VStr "always" ]}
             : RawService)
  /\ mergeConfig merge
       {[ "image" := VStr "a"; "ports" := VSeq [VInt 80] ]}
       {[ "ports" := VSeq [VInt 8080]; "restart" := VStr "always" ]} !! "image"
     = Some (VStr "a").
Proof.
  destruct (mergeConfig_fields merge
              {[ "image" := VStr "a"; "ports" := VSeq [VInt 80] ]}
              {[ "ports" := VSeq [VInt 8080]; "restart" := VStr "always" ]})
    as [Hdom Hkeep].
  split; [exact Hdom|]. by rewrite Hkeep.
Defined.


Lemma readEnvFile_frame_witness :
  (forall k, k <> "environment" ->
     <["environment" := VStrings ["A=1"; "B=3"]]> webService !! k
     = webService !! k)
  /\ (<["environment" := VStrings ["A=1"; "B=3"]]> webService = webService
      \/ exists vars,
           <["environment" := VStrings ["A=1"; "B=3"]]> webService
             !! "environment" = Some (VStrings vars)).
Proof.
  apply (readEnvFile_frame Sample.stringorslice Sample.maporEqualSlice
           Sample.trimSpace (Some webFiles) "compose.yml" webService).
  vm_compute. reflexivity.
Defined.

(** Of the two env files that are missing, the one listed later is the one
    reported. *)
Lemma readEnvFile_stops_at_unreadable_witness :
  sampleReadEnvFile (Some envFiles) "compose.yml" missingService
  = Err (Foreign "no such file: gone.env").
Proof.
  apply (readEnvFile_stops_at_unreadable Sample.stringorslice
           Sample.maporEqualSlice Sample.trimSpace envFiles "compose.yml"
           missingService
           (VSeq [VStr "missing.env"; VStr "gone.env"; VStr "twice.env"])
           ["missing.env"] ["twice.env"] [] "gone.env").
  - reflexivity.
  - reflexivity.
  - reflexivity.
  - constructor; [|constructor].
    exists ("A=1" +:+ String Bufio.LF ("A=2" +:+ String Bufio.LF "B=3")),
           "twice.env".
    split; reflexivity.
  - left. reflexivity.
Defined.

Lemma blank_env_only file :
  file ∈ ["blank.env"] ->
  readable envFiles "compose.yml" file
  /\ fileLines Sample.trimSpace envFiles "compose.yml" file = [].
Proof.
  intros ->%list_elem_of_singleton. split; [|reflexivity].
  exists ("# nothing to set" +:+ String Bufio.LF ("   " +:+ String Bufio.LF "")),
         "blank.env".
  split; reflexivity.
Qed.

Lemma readEnvFile_no_useful_lines_witness :
  sampleReadEnvFile (Some envFiles) "compose.yml" blankService
  = Ok (<["environment" := VStrings []]> blankService).
Proof.
  apply (readEnvFile_no_useful_lines Sample.stringorslice
           Sample.maporEqualSlice Sample.trimSpace envFiles "compose.yml"
           blankService (VStr "blank.env") ["blank.env"] []).
  - reflexivity.
  - reflexivity.
  - discriminate.
  - reflexivity.
  - intros file Hin. apply (blank_env_only file Hin).
  - intros file Hin. apply (blank_env_only file Hin).
Defined.

Lemma twice_env_readable file :
  file ∈ ["twice.env"; "twice.env"] -> readable envFiles "compose.yml" file.
Proof.
  intros Hin.
  assert (file = "twice.env") as ->.
  { apply elem_of_cons in Hin as [->|Hin]; [done|].
    by apply list_elem_of_singleton in Hin. }
  exists ("A=1" +:+ String Bufio.LF ("A=2" +:+ String Bufio.LF "B=3")),
         "twice.env".
  split; reflexivity.
Qed.

(** A file that sets A twice, listed twice: A and B are added once. *)
Lemma readEnvFile_distinct_keys_witness :
  exists added,
    sampleReadEnvFile (Some envFiles) "compose.yml" twiceService
    = Ok (<["environment" := VStrings ([] ++ added)]> twiceService)
    /\ NoDup (keyOf <$> added).
Proof.
  apply (readEnvFile_distinct_keys Sample.stringorslice
           Sample.maporEqualSlice Sample.trimSpace envFiles "compose.yml"
           twiceService (VSeq [VStr "twice.env"; VStr "twice.env"])
           ["twice.env"; "twice.env"] []).
  - reflexivity.
  - reflexivity.
  - discriminate.
  - reflexivity.
  - apply twice_env_readable.
Defined.

Example readEnvFile_twice :
  sampleReadEnvFile (Some envFiles) "compose.yml" twiceService
  = Ok (<["environment" := VStrings ["A=1"; "B=3"]]> twiceService).
Proof. vm_compute. reflexivity. Qed.

Lemma LookupConfig_frame_witness :
  DockerCtx.Context
    (DockerCtx.mk tt tt "/home/user/.docker"
       (Some "/home/user/.docker/config.json") tt)
  = DockerCtx.Context context
  /\ DockerCtx.ClientFactory
       (DockerCtx.mk tt tt "/home/user/.docker"
          (Some "/home/user/.docker/config.json") tt)
     = DockerCtx.ClientFactory context
  /\ DockerCtx.ConfigDir
       (DockerCtx.mk tt tt "/home/user/.docker"
          (Some "/home/user/.docker/config.json") tt)
     = DockerCtx.ConfigDir context
  /\ DockerCtx.AuthLookup
       (DockerCtx.mk tt tt "/home/user/.docker"
          (Some "/home/user/.docker/config.json") tt)
     = DockerCtx.AuthLookup context
  /\ (is_Some (DockerCtx.ConfigFile context) ->
      DockerCtx.mk tt tt "/home/user/.docker"
        (Some "/home/user/.docker/config.json") tt = context
      /\ (None : option error) = None)
  /\ (is_Some (None : option error) ->
      DockerCtx.mk tt tt "/home/user/.docker"
        (Some "/home/user/.docker/config.json") tt = context).
Proof.
  exact (LookupConfig_frame load context
           (DockerCtx.mk tt tt "/home/user/.docker"
              (Some "/home/user/.docker/config.json") tt) None eq_refl).
Defined.

(** A first call loads the file; a second call, at a time when the load
    would fail, returns the context as it is. *)
Lemma LookupConfig_loads_once_witness :
  DockerCtx.LookupConfig noLoad
    (DockerCtx.mk tt tt "/home/user/.docker"
       (Some "/home/user/.docker/config.json") tt)
  = (DockerCtx.mk tt tt "/home/user/.docker"
       (Some "/home/user/.docker/config.json") tt, None).
Proof.
  apply (LookupConfig_loads_once load noLoad context _ None eq_refl).
  by eexists.
Defined.
